(** * Unit Converter API (lec2_flask.py): a shallow embedding and its properties

    The handler [convert] of the Flask service is embedded as a pure function
    from a request (the [is_json] flag and the decoded JSON body) to an
    outcome (the response the handler returns, or the exception it lets
    escape).  Python values are modelled as follows.

    - [float] is IEEE-754 binary64: Rocq's primitive [float], with the
      primitive operations for [*], [/], [+], [-] and [<].
    - [str] is [string], read as a sequence of code points below 256.
    - [int] is [Z]; [dict] literals are association lists in source order,
      looked up by first match.
    - The builtins [float(...)], [round(x, 6)], [str.lower], [str.strip] and
      [sorted] are modelled by the functions of the first two modules. *)

From Stdlib Require Import ZArith QArith Qabs Qpower Lia Lqa Bool List Ascii String.
From Stdlib Require Import Sorting.Sorted Sorting.Permutation.
From Stdlib Require Import PrimFloat SpecFloat FloatOps FloatAxioms.
Import ListNotations.

#[local] Set Warnings "-inexact-float,-register-all".
#[local] Open Scope string_scope.
#[local] Open Scope Z_scope.

(* ------------------------------------------------------------------ *)
(** ** Python [str] methods used by the handler *)

Module PyStr.

Definition code (c : ascii) : Z := Z.of_N (N_of_ascii c).

(** [str.isspace] on one code point below 256: TAB..CR, FS..US, SPACE,
    NEL (0x85) and NBSP (0xA0). *)
Definition is_space (c : ascii) : bool :=
  let n := code c in
  ((9 <=? n) && (n <=? 13)) || ((28 <=? n) && (n <=? 32))
  || (n =? 133) || (n =? 160).

(** [str.lower] on one code point below 256: A..Z and the Latin-1 capitals
    0xC0..0xDE (the multiplication sign 0xD7 excepted) move up by 32. *)
Definition lower_char (c : ascii) : ascii :=
  let n := code c in
  if ((65 <=? n) && (n <=? 90))
     || ((192 <=? n) && (n <=? 222) && negb (n =? 215))
  then ascii_of_N (Z.to_N (n + 32))
  else c.

Fixpoint lower (s : string) : string :=
  match s with
  | EmptyString => EmptyString
  | String c s' => String (lower_char c) (lower s')
  end.

Section Strip.
Variable space : ascii -> bool.

Fixpoint lstrip_by (s : string) : string :=
  match s with
  | EmptyString => EmptyString
  | String c s' => if space c then lstrip_by s' else s
  end.

Fixpoint rstrip_by (s : string) : string :=
  match s with
  | EmptyString => EmptyString
  | String c s' =>
      match rstrip_by s' with
      | EmptyString => if space c then EmptyString else String c EmptyString
      | r => String c r
      end
  end.

Definition strip_by (s : string) : string := rstrip_by (lstrip_by s).
End Strip.

(** [s.strip()]. *)
Definition strip (s : string) : string := strip_by is_space s.

(** [sub in s] for two strings. *)
Definition contains (sub s : string) : bool :=
  match index 0 sub s with
  | Some _ => true
  | None => false
  end.

(** [sorted(l)] for a list of strings (code-point order). *)
Fixpoint insert (x : string) (l : list string) : list string :=
  match l with
  | [] => [x]
  | y :: l' => if String.leb x y then x :: l else y :: insert x l'
  end.

Fixpoint sorted (l : list string) : list string :=
  match l with
  | [] => []
  | x :: l' => insert x (sorted l')
  end.

End PyStr.

(* ------------------------------------------------------------------ *)
(** ** Python [float]: construction and [round(x, 6)] *)

Module PyFloat.

(** Nearest integer to [a / b] ([b > 0]), ties to even. *)
Definition rne_div (a b : Z) : Z :=
  let q := a / b in
  let r := a mod b in
  match 2 * r ?= b with
  | Lt => q
  | Gt => q + 1
  | Eq => if Z.even q then q else q + 1
  end.

(** The binary64 value nearest to [(-1)^s * m * 10^e] (ties to even),
    as correctly rounded decimal-to-binary conversion gives it. *)
Definition of_decimal (s : bool) (m : Z) (e : Z) : spec_float :=
  match m with
  | Zpos p =>
      if 0 <=? e
      then binary_normalize prec emax (cond_Zopp s (m * 10 ^ e)) 0 false
      else SFdiv prec emax (S754_finite s p 0)
                           (S754_finite false (Z.to_pos (10 ^ (- e))) 0)
  | _ => S754_zero s
  end.

(** [float(n)] for an [int]: correctly rounded, [OverflowError] ([None])
    when the rounded value is not finite. *)
Definition of_int (n : Z) : option float :=
  match of_decimal (n <? 0) (Z.abs n) 0 with
  | S754_infinity _ => None
  | sf => Some (SF2Prim sf)
  end.

(** [round(x, 6)]: the exact value of [x] is rounded to the nearest
    multiple of [10^-6] (ties to even) and that decimal is converted back
    to the nearest binary64; zeros, infinities and NaN are returned as
    they are. *)
Definition scaled6 (m : positive) (e : Z) : Z :=
  if 0 <=? e then Zpos m * 1000000 * 2 ^ e
  else rne_div (Zpos m * 1000000) (2 ^ (- e)).

Definition round6 (x : float) : float :=
  match Prim2SF x with
  | S754_finite s m e => SF2Prim (of_decimal s (scaled6 m e) (-6))
  | _ => x
  end.

(** *** [float(s)] for a [str] *)

(** The white space [float] skips at both ends: the ASCII set TAB..CR and
    SPACE, and the non-ASCII spaces NEL and NBSP (the separators FS..US,
    which [str.strip] removes, are not skipped here). *)
Definition is_float_space (c : ascii) : bool :=
  let n := PyStr.code c in
  ((9 <=? n) && (n <=? 13)) || (n =? 32) || (n =? 133) || (n =? 160).

Definition is_digit (c : ascii) : bool :=
  let n := PyStr.code c in (48 <=? n) && (n <=? 57).

Definition digit_val (c : ascii) : Z := PyStr.code c - 48.

(** The rest of a [digitpart ::= digit (["_"] digit)*]: accumulated value,
    number of digits read, unread suffix. *)
Fixpoint digits_tail (s : string) (acc n : Z) : Z * Z * string :=
  match s with
  | String c s' =>
      if is_digit c then digits_tail s' (10 * acc + digit_val c) (n + 1)
      else if Ascii.eqb c "_" then
        match s' with
        | String d s'' =>
            if is_digit d
            then digits_tail s'' (10 * acc + digit_val d) (n + 1)
            else (acc, n, s)
        | EmptyString => (acc, n, s)
        end
      else (acc, n, s)
  | EmptyString => (acc, n, s)
  end.

Definition digitpart (s : string) (acc n : Z) : option (Z * Z * string) :=
  match s with
  | String c s' =>
      if is_digit c
      then Some (digits_tail s' (10 * acc + digit_val c) (n + 1))
      else None
  | EmptyString => None
  end.

(** [number ::= [digitpart] "." digitpart | digitpart ["."]]: mantissa,
    number of fractional digits, unread suffix. *)
Definition number (s : string) : option (Z * Z * string) :=
  match digitpart s 0 0 with
  | Some (ip, _, String "." r) =>
      match digitpart r ip 0 with
      | Some res => Some res
      | None => Some (ip, 0, r)
      end
  | Some (ip, _, r) => Some (ip, 0, r)
  | None =>
      match s with
      | String "." r => digitpart r 0 0
      | _ => None
      end
  end.

Definition sign (s : string) : bool * string :=
  match s with
  | String "-" r => (true, r)
  | String "+" r => (false, r)
  | _ => (false, s)
  end.

(** [exponent ::= ("e" | "E") [sign] digitpart], then end of input. *)
Definition exponent (s : string) : option Z :=
  match s with
  | EmptyString => Some 0
  | String c r =>
      if Ascii.eqb c "e" || Ascii.eqb c "E" then
        let (neg, r') := sign r in
        match digitpart r' 0 0 with
        | Some (e, _, EmptyString) => Some (if neg then - e else e)
        | _ => None
        end
      else None
  end.

Definition of_str (s : string) : option float :=
  let (neg, r) := sign (PyStr.strip_by is_float_space s) in
  let l := PyStr.lower r in
  if String.eqb l "inf" || String.eqb l "infinity"
  then Some (if neg then neg_infinity else infinity)
  else if String.eqb l "nan" then Some nan
  else
    match number r with
    | Some (m, nfrac, r') =>
        match exponent r' with
        | Some e => Some (SF2Prim (of_decimal neg m (e - nfrac)))
        | None => None
        end
    | None => None
    end.

End PyFloat.

(* ------------------------------------------------------------------ *)
(** ** JSON values, dictionaries and responses *)

(** A decoded JSON value, as [request.get_json()] returns it: [None],
    [bool], [int], [float], [str], [list] and [dict]. *)
Inductive json : Type :=
| JNull
| JBool (b : bool)
| JInt (n : Z)
| JFloat (x : float)
| JStr (s : string)
| JList (l : list json)
| JObj (kvs : list (string * json)).

(** [d.get(k)] on an association list; [None] when the key is absent. *)
Fixpoint dict_get {V : Type} (d : list (string * V)) (k : string) : option V :=
  match d with
  | [] => None
  | (k', v) :: d' => if String.eqb k k' then Some v else dict_get d' k
  end.

Definition dict_keys {V : Type} (d : list (string * V)) : list string :=
  map fst d.

(** [float(value)]; [None] stands for the exception the handler catches
    ([TypeError], [ValueError] or [OverflowError]). *)
Definition py_float (value : json) : option float :=
  match value with
  | JBool b => Some (if b then 1%float else 0%float)
  | JInt n => PyFloat.of_int n
  | JFloat x => Some x
  | JStr s => PyFloat.of_str s
  | JNull | JList _ | JObj _ => None
  end.

(** [f in body]; [None] stands for the [TypeError] of a body that is not a
    container. *)
Definition py_in (f : string) (body : json) : option bool :=
  match body with
  | JObj kvs => Some (match dict_get kvs f with Some _ => true | None => false end)
  | JList l =>
      Some (existsb (fun j => match j with
                              | JStr s => String.eqb s f
                              | _ => false
                              end) l)
  | JStr s => Some (PyStr.contains f s)
  | JNull | JBool _ | JInt _ | JFloat _ => None
  end.

Record Response : Type := mkResponse {
  status : Z;
  payload : list (string * json)
}.

Inductive exn : Type := TypeError | AttributeError.

(** What a call of the handler ends in: a response, or an exception that
    the handler does not catch. *)
Inductive outcome : Type :=
| Returned (r : Response)
| Raised (e : exn).

(** What the handler reads of the request: [request.is_json] and the value
    [request.get_json()] decodes the body to. *)
Record Request : Type := mkRequest {
  is_json : bool;
  get_json : json
}.

(* ------------------------------------------------------------------ *)
(** ** The unit registry *)

Definition ALLOWED_UNITS : list (string * string) :=
  [ ("miles", "length");
    ("mile", "length");
    ("mi", "length");
    ("kilometer", "length");
    ("kilometers", "length");
    ("km", "length");
    ("kilometre", "length");
    ("kilometres", "length");
    ("pounds", "weight");
    ("pound", "weight");
    ("lb", "weight");
    ("lbs", "weight");
    ("kilogram", "weight");
    ("kilograms", "weight");
    ("kg", "weight");
    ("celsius", "temperature");
    ("c", "temperature");
    ("fahrenheit", "temperature");
    ("f", "temperature") ].

Definition NORMALIZE : list (string * string) :=
  [ ("miles", "mi"); ("mile", "mi"); ("mi", "mi");
    ("kilometer", "km"); ("kilometers", "km"); ("km", "km");
    ("kilometre", "km"); ("kilometres", "km");
    ("pounds", "lb"); ("pound", "lb"); ("lbs", "lb"); ("lb", "lb");
    ("kilogram", "kg"); ("kilograms", "kg"); ("kg", "kg");
    ("celsius", "c"); ("c", "c"); ("fahrenheit", "f"); ("f", "f") ].

Definition get_unit_type (unit : option string) : option string :=
  match unit with
  | None => None
  | Some u => dict_get ALLOWED_UNITS (PyStr.lower u)
  end.

Definition normalize (unit : option string) : option string :=
  match unit with
  | None => None
  | Some u => dict_get NORMALIZE (PyStr.lower u)
  end.

(* ------------------------------------------------------------------ *)
(** ** Conversion helpers *)

Definition miles_to_km (mi : float) : float := (mi * 1.609344)%float.
Definition km_to_miles (km : float) : float := (km / 1.609344)%float.
Definition lb_to_kg (lb : float) : float := (lb * 0.45359237)%float.
Definition kg_to_lb (kg : float) : float := (kg / 0.45359237)%float.
Definition c_to_f (c : float) : float := ((c * 9.0 / 5.0) + 32.0)%float.
Definition f_to_c (f : float) : float := ((f - 32.0) * 5.0 / 9.0)%float.

(* ------------------------------------------------------------------ *)
(** ** The handler of [POST /convert] *)

#[local] Infix "==" := String.eqb (at level 70, no associativity).

Definition error_response (st : Z) (p : list (string * json)) : Response :=
  mkResponse st p.

Definition jsonify (p : list (string * json)) : Response :=
  mkResponse 200 p.

(** Step 2: the fields of [("value", "from_unit", "to_unit")] that are not
    in the body, in that order. *)
Fixpoint missing_fields (body : json) (fs : list string) : option (list string) :=
  match fs with
  | [] => Some []
  | f :: fs' =>
      match py_in f body with
      | None => None
      | Some b =>
          match missing_fields body fs' with
          | None => None
          | Some m => Some (if b then m else f :: m)
          end
      end
  end.

(** Step 8: the branch taken for a unit type and two canonical codes; a
    response on the left when no conversion applies.  The arithmetic of the
    helpers raises nothing, so the [except] clause has no case here. *)
Definition dispatch (from_type from_unit to_unit : string) (value_num : float)
  : Response + float :=
  if from_type == "length" then
    if from_unit == to_unit then inr value_num
    else if (from_unit == "mi") && (to_unit == "km") then inr (miles_to_km value_num)
    else if (from_unit == "km") && (to_unit == "mi") then inr (km_to_miles value_num)
    else inl (error_response 400 [("error", JStr "Unsupported length conversion pair")])
  else if from_type == "weight" then
    if from_unit == to_unit then inr value_num
    else if (from_unit == "lb") && (to_unit == "kg") then inr (lb_to_kg value_num)
    else if (from_unit == "kg") && (to_unit == "lb") then inr (kg_to_lb value_num)
    else inl (error_response 400 [("error", JStr "Unsupported weight conversion pair")])
  else if from_type == "temperature" then
    if from_unit == to_unit then inr value_num
    else if (from_unit == "c") && (to_unit == "f") then inr (c_to_f value_num)
    else if (from_unit == "f") && (to_unit == "c") then inr (f_to_c value_num)
    else inl (error_response 400 [("error", JStr "Unsupported temperature conversion pair")])
  else inl (error_response 500 [("error", JStr "Unhandled unit type")]).

Definition allowed_units : json :=
  JList (map JStr (PyStr.sorted (dict_keys ALLOWED_UNITS))).

(** Steps 4 to 8 and the result, for a number and two stripped unit strings. *)
Definition convert_units (value_num : float) (from_unit_raw to_unit_raw : string)
  : Response :=
  match get_unit_type (Some from_unit_raw), get_unit_type (Some to_unit_raw) with
  | None, _ =>
      error_response 422 [("error", JStr "Unsupported from_unit");
                          ("provided", JStr from_unit_raw);
                          ("allowed_units", allowed_units)]
  | Some _, None =>
      error_response 422 [("error", JStr "Unsupported to_unit");
                          ("provided", JStr to_unit_raw);
                          ("allowed_units", allowed_units)]
  | Some from_type, Some to_type =>
      if negb (from_type == to_type) then
        error_response 400
          [("error", JStr "Unsupported conversion types");
           ("message", JStr ("Cannot convert from " ++ from_type ++ " to " ++ to_type));
           ("from_unit", JStr from_unit_raw);
           ("to_unit", JStr to_unit_raw)]
      else
        match normalize (Some from_unit_raw), normalize (Some to_unit_raw) with
        | Some from_unit, Some to_unit =>
            if ((from_type == "length") || (from_type == "weight"))
               && (value_num <? 0)%float
            then
              error_response 400
                [("error", JStr "Negative value not allowed for selected unit type");
                 ("unit_type", JStr from_type);
                 ("provided_value", JFloat value_num)]
            else
              match dispatch from_type from_unit to_unit value_num with
              | inl r => r
              | inr converted =>
                  let converted_rounded := PyFloat.round6 converted in
                  jsonify [("original_value", JFloat value_num);
                           ("original_unit", JStr from_unit_raw);
                           ("converted_value", JFloat converted_rounded);
                           ("converted_unit", JStr to_unit_raw);
                           ("conversion_type", JStr from_type)]
              end
        | _, _ =>
            error_response 422 [("error", JStr "Unit normalization failed");
                                ("from_unit", JStr from_unit_raw);
                                ("to_unit", JStr to_unit_raw)]
        end
  end.

(** [isinstance(u, str) and u.strip()]: the string when both hold. *)
Definition nonempty_str (u : json) : option string :=
  match u with
  | JStr s => if (PyStr.strip s == "") then None else Some s
  | _ => None
  end.

(** Step 3 onwards, for the three values read from the body. *)
Definition convert_fields (value from_unit_raw to_unit_raw : json) : Response :=
  match py_float value with
  | None =>
      error_response 422 [("error", JStr "value must be a number");
                          ("provided", value)]
  | Some value_num =>
      match nonempty_str from_unit_raw with
      | None =>
          error_response 422 [("error", JStr "from_unit must be a non-empty string");
                              ("provided", from_unit_raw)]
      | Some from_s =>
          match nonempty_str to_unit_raw with
          | None =>
              error_response 422 [("error", JStr "to_unit must be a non-empty string");
                                  ("provided", to_unit_raw)]
          | Some to_s =>
              convert_units value_num (PyStr.strip from_s) (PyStr.strip to_s)
          end
      end
  end.

(** [body.get(k)]: defined on a [dict] only. *)
Definition body_get (body : json) (k : string) : option json :=
  match body with
  | JObj kvs => Some (match dict_get kvs k with Some v => v | None => JNull end)
  | _ => None
  end.

Definition convert (request : Request) : outcome :=
  if negb (is_json request) then
    Returned (error_response 422 [("error", JStr "Request must be JSON");
                                  ("hint", JStr "Set Content-Type: application/json")])
  else
    let body := get_json request in
    match missing_fields body ["value"; "from_unit"; "to_unit"] with
    | None => Raised TypeError
    | Some ((_ :: _) as missing) =>
        Returned (error_response 422 [("error", JStr "Missing fields");
                                      ("missing", JList (map JStr missing))])
    | Some [] =>
        match body_get body "value", body_get body "from_unit",
              body_get body "to_unit" with
        | Some value, Some from_unit_raw, Some to_unit_raw =>
            Returned (convert_fields value from_unit_raw to_unit_raw)
        | _, _, _ => Raised AttributeError
        end
    end.

(* ------------------------------------------------------------------ *)
(** ** Observations on requests and responses *)

(** The request is JSON, its body is an object, and the three fields hold
    the given values. *)
Definition has_fields (request : Request) (value from_unit to_unit : json) : Prop :=
  is_json request = true /\
  exists kvs, get_json request = JObj kvs /\
              dict_get kvs "value" = Some value /\
              dict_get kvs "from_unit" = Some from_unit /\
              dict_get kvs "to_unit" = Some to_unit.

(** The JSON request [{value, from_unit, to_unit}]. *)
Definition request_of (value : json) (from_unit to_unit : string) : Request :=
  mkRequest true (JObj [("value", value);
                        ("from_unit", JStr from_unit);
                        ("to_unit", JStr to_unit)]).

(** The body of a successful (HTTP 200) conversion. *)
Definition ok_response (value_num : float) (from_unit_raw to_unit_raw : string)
           (converted_rounded : float) (from_type : string) : Response :=
  mkResponse 200 [("original_value", JFloat value_num);
                  ("original_unit", JStr from_unit_raw);
                  ("converted_value", JFloat converted_rounded);
                  ("converted_unit", JStr to_unit_raw);
                  ("conversion_type", JStr from_type)].

(** [s], once stripped, is a spelling (in any case) of a unit of type [t],
    respectively of the unit with canonical code [c]. *)
Definition unit_type_of (s t : string) : Prop :=
  get_unit_type (Some (PyStr.strip s)) = Some t.

Definition spelling_of (s c : string) : Prop :=
  normalize (Some (PyStr.strip s)) = Some c.

(** The unit type a canonical code belongs to. *)
Definition type_of_code (c : string) : string :=
  if (c == "mi") || (c == "km") then "length"
  else if (c == "lb") || (c == "kg") then "weight"
  else "temperature".

(** The six canonical codes. *)
Definition is_code (c : string) : bool :=
  (c == "mi") || (c == "km") || (c == "lb") || (c == "kg") || (c == "c") || (c == "f").

(** No character of [s] is white space. *)
Fixpoint no_space (s : string) : bool :=
  match s with
  | EmptyString => true
  | String c s' => negb (PyStr.is_space c) && no_space s'
  end.

(** The branches of step 8 that produce a value. *)
Inductive branch : Type :=
| Identity | MilesToKm | KmToMiles | LbToKg | KgToLb | CToF | FToC.

Definition branch_value (b : branch) (value_num : float) : float :=
  match b with
  | Identity => value_num
  | MilesToKm => miles_to_km value_num
  | KmToMiles => km_to_miles value_num
  | LbToKg => lb_to_kg value_num
  | KgToLb => kg_to_lb value_num
  | CToF => c_to_f value_num
  | FToC => f_to_c value_num
  end.

(** The conversion formulas in the words of the specification, for two
    distinct canonical codes: mi to km multiplies by 1.609344, km to mi
    divides by it; lb to kg multiplies by 0.45359237, kg to lb divides by
    it; c to f is value x 9/5 + 32 and f to c is (value - 32) x 5/9.  The
    operators are binary64 operations, applied with the usual precedence
    from left to right. *)
Definition spec_formula (from_code to_code : string) (value : float) : option float :=
  if (from_code == "mi") && (to_code == "km") then Some (value * 1.609344)%float
  else if (from_code == "km") && (to_code == "mi") then Some (value / 1.609344)%float
  else if (from_code == "lb") && (to_code == "kg") then Some (value * 0.45359237)%float
  else if (from_code == "kg") && (to_code == "lb") then Some (value / 0.45359237)%float
  else if (from_code == "c") && (to_code == "f") then Some (value * 9 / 5 + 32)%float
  else if (from_code == "f") && (to_code == "c") then Some ((value - 32) * 5 / 9)%float
  else None.

(** The [error] message of a response, if it has one. *)
Definition error_of (r : Response) : option string :=
  match dict_get (payload r) "error" with
  | Some (JStr e) => Some e
  | _ => None
  end.

(** The [converted_value] of a successful conversion. *)
Definition converted_value (o : outcome) : option float :=
  match o with
  | Returned r =>
      if status r =? 200 then
        match dict_get (payload r) "converted_value" with
        | Some (JFloat x) => Some x
        | _ => None
        end
      else None
  | Raised _ => None
  end.

(** What a caller reads off a conversion: the status with the
    [converted_value] and [conversion_type] fields. *)
Definition summary (o : outcome) : option (Z * option json * option json) :=
  match o with
  | Returned r =>
      Some (status r, dict_get (payload r) "converted_value",
            dict_get (payload r) "conversion_type")
  | Raised _ => None
  end.

(** Converting [value] from [a] to [b] and the result back from [b] to [a],
    both through the handler. *)
Definition round_trip (a b : string) (value : json) : option float :=
  match converted_value (convert (request_of value a b)) with
  | Some w => converted_value (convert (request_of (JFloat w) b a))
  | None => None
  end.

(** The exact value of a finite [float], as a rational. *)
Definition float_to_Q (x : float) : option Q :=
  match Prim2SF x with
  | S754_zero _ => Some 0%Q
  | S754_finite s m e =>
      let q := if 0 <=? e then inject_Z (Zpos m * 2 ^ e)
               else Qmake (Zpos m) (Z.to_pos (2 ^ (- e))) in
      Some (if s then Qopp q else q)
  | S754_infinity _ | S754_nan => None
  end.

(** [x] and [y] are finite and their exact values differ by [tol] at most. *)
Definition within (tol : Q) (x y : float) : bool :=
  match float_to_Q x, float_to_Q y with
  | Some qx, Some qy => Qle_bool (Qabs (qx - qy)) tol
  | _, _ => false
  end.

(** The distance allowed between a whole number and its round trip: one
    unit of the sixth decimal place where the conversion back shrinks the
    rounding of the first conversion (factor below 1), two units in the
    opposite directions, where it magnifies it. *)
Definition tolerance (a b : string) : Q :=
  if ((a == "mi") && (b == "km")) || ((a == "kg") && (b == "lb"))
     || ((a == "c") && (b == "f"))
  then 1 # 1000000
  else 2 # 1000000.

(* ------------------------------------------------------------------ *)
(** ** Exact values of binary64 data *)

(** 2^e as a rational. *)
Definition P2 (e : Z) : Q := Qpower 2 e.

(** The exact value of a finite binary floating-point datum. *)
Definition SFval (x : spec_float) : Q :=
  match x with
  | S754_finite s m e =>
      if s then (- (inject_Z (Zpos m) * P2 e))%Q else (inject_Z (Zpos m) * P2 e)%Q
  | _ => 0%Q
  end.

(** The rational [y] lies at location [l] of the unit interval that starts
    at the integer [m]. *)
Definition located (m : Z) (l : location) (y : Q) : Prop :=
  match l with
  | loc_Exact => (y == inject_Z m)%Q
  | loc_Inexact Lt => (inject_Z m < y /\ y < inject_Z m + (1 # 2))%Q
  | loc_Inexact Eq => (y == inject_Z m + (1 # 2))%Q
  | loc_Inexact Gt => (inject_Z m + (1 # 2) < y /\ y < inject_Z m + 1)%Q
  end.

(** The record [mrs] of a right shift stands for the rational [y]: its
    mantissa is the integer part and its two flags give the location of
    the rest. *)
Definition rep (mrs : shr_record) (y : Q) : Prop :=
  0 <= shr_m mrs /\ located (shr_m mrs) (loc_of_shr_record mrs) y.

(** A zero or a finite number. *)
Definition SFfinite (r : spec_float) : Prop :=
  match r with
  | S754_zero _ | S754_finite _ _ _ => True
  | S754_infinity _ | S754_nan => False
  end.

(** [x] with the sign [s]. *)
Definition signed (s : bool) (x : Q) : Q := if s then (- x)%Q else x.

(** A body that is no container: [None], a [bool] or a number. *)
Definition is_scalar (body : json) : bool :=
  match body with
  | JNull | JBool _ | JInt _ | JFloat _ => true
  | JStr _ | JList _ | JObj _ => false
  end.

(** The fields of step 2 that an object body lacks, in the order of the
    loop. *)
Definition absent_fields (kvs : list (string * json)) : list string :=
  filter (fun f => match dict_get kvs f with Some _ => false | None => true end)
         ["value"; "from_unit"; "to_unit"].

(* ------------------------------------------------------------------ *)
(** ** The handler of [GET /help] *)

(** [list(set(l))]: the distinct elements of [l]; the order a [set] yields
    them in is immaterial here, the list is sorted next. *)
Definition py_set (l : list string) : list string := nodup string_dec l.

Definition examples : list json :=
  [ JObj [("value", JInt 5); ("from_unit", JStr "mi"); ("to_unit", JStr "km")];
    JObj [("value", JInt 10); ("from_unit", JStr "kg"); ("to_unit", JStr "lb")];
    JObj [("value", JInt (-10)); ("from_unit", JStr "celsius");
          ("to_unit", JStr "fahrenheit")] ].

Definition help_endpoint : Response :=
  let allowed := PyStr.sorted (py_set (dict_keys ALLOWED_UNITS)) in
  jsonify
    [("description",
      JStr "POST /convert with JSON body {value, from_unit, to_unit}");
     ("allowed_units_examples", JList (map JStr (firstn 30 allowed)));
     ("unit_categories",
      JObj [("length", JList [JStr "mi (miles)"; JStr "km (kilometers)"]);
            ("weight", JList [JStr "lb (pounds)"; JStr "kg (kilograms)"]);
            ("temperature", JList [JStr "c (celsius)"; JStr "f (fahrenheit)"])]);
     ("examples", JList examples);
     ("edge_cases_handled",
      JList [JStr "negative_values_for_length_or_weight -> rejected";
             JStr "negative_temperature -> allowed";
             JStr "unknown_units -> 422 with allowed units list";
             JStr "unsupported_category_conversion -> 400"]);
     ("notes",
      JStr "Be careful in Postman to set Content-Type: application/json")].

(** Splits a membership in a literal list into its cases. *)
Ltac in_cases H :=
  simpl in H;
  repeat (destruct H as [H|H]; [inversion H; subst; clear H|]);
  try contradiction.

(* ------------------------------------------------------------------ *)
(** ** Lemmas on strings *)

Lemma is_space_lower_char (c : ascii) :
  PyStr.is_space (PyStr.lower_char c) = PyStr.is_space c.
Proof.
  destruct c as [[] [] [] [] [] [] [] []]; reflexivity.
Qed.

Lemma no_space_lower (s : string) : no_space (PyStr.lower s) = no_space s.
Proof.
  induction s as [|c s IH]; simpl; [reflexivity|].
  now rewrite is_space_lower_char, IH.
Qed.

Lemma lstrip_no_space (s : string) :
  no_space s = true -> PyStr.lstrip_by PyStr.is_space s = s.
Proof.
  destruct s as [|c s]; simpl; [reflexivity|].
  intros H. apply andb_prop in H as [H _].
  apply negb_true_iff in H. now rewrite H.
Qed.

Lemma rstrip_no_space (s : string) :
  no_space s = true -> PyStr.rstrip_by PyStr.is_space s = s.
Proof.
  induction s as [|c s IH]; simpl; [reflexivity|].
  intros H. apply andb_prop in H as [Hc Hs].
  apply negb_true_iff in Hc. rewrite (IH Hs), Hc.
  now destruct s.
Qed.

Lemma strip_no_space (s : string) : no_space s = true -> PyStr.strip s = s.
Proof.
  intros H. unfold PyStr.strip, PyStr.strip_by.
  now rewrite (lstrip_no_space s H), (rstrip_no_space s H).
Qed.

Lemma dict_get_In {V : Type} (d : list (string * V)) (k : string) (v : V) :
  dict_get d k = Some v -> In (k, v) d.
Proof.
  induction d as [|[k' v'] d IH]; simpl; [discriminate|].
  destruct (String.eqb_spec k k') as [->|_].
  - intros [= ->]. now left.
  - intros H. right. now apply IH.
Qed.

Lemma dict_get_keys {V : Type} (d : list (string * V)) (k : string) :
  In k (dict_keys d) <-> dict_get d k <> None.
Proof.
  induction d as [|[k' v'] d IH]; simpl.
  - split; [intros [] | intros H; now elim H].
  - destruct (String.eqb_spec k k') as [->|Hne].
    + split; [discriminate | now left].
    + rewrite <- IH. split; [intros [H|H]; [now elim Hne | exact H] | now right].
Qed.

(* ------------------------------------------------------------------ *)
(** ** Lemmas on the registry *)

(** Every key of [ALLOWED_UNITS] is a key of [NORMALIZE], and its code is
    one of the two codes of its type. *)
Lemma allowed_normalized (k t : string) :
  dict_get ALLOWED_UNITS k = Some t ->
  exists c, dict_get NORMALIZE k = Some c /\ is_code c = true /\ type_of_code c = t.
Proof.
  intros H. apply dict_get_In in H.
  in_cases H; eexists; repeat split.
Qed.

Lemma normalized_allowed (k c : string) :
  dict_get NORMALIZE k = Some c ->
  dict_get ALLOWED_UNITS k = Some (type_of_code c) /\ is_code c = true /\
  no_space k = true.
Proof.
  intros H. apply dict_get_In in H.
  in_cases H; repeat split.
Qed.

Lemma is_code_cases (c : string) :
  is_code c = true ->
  c = "mi" \/ c = "km" \/ c = "lb" \/ c = "kg" \/ c = "c" \/ c = "f".
Proof.
  unfold is_code. intros H.
  repeat (apply orb_prop in H as [H|H]);
    apply String.eqb_eq in H; tauto.
Qed.

(** A recognized spelling carries no white space: stripping leaves it as
    it is. *)
Lemma normalize_strip (s c : string) :
  normalize (Some s) = Some c -> PyStr.strip s = s.
Proof.
  simpl. intros H. apply normalized_allowed in H as (_ & _ & H).
  rewrite no_space_lower in H. now apply strip_no_space.
Qed.

Lemma spelling_of_exact (s c : string) :
  normalize (Some s) = Some c -> spelling_of s c.
Proof.
  intros H. unfold spelling_of. now rewrite (normalize_strip s c H).
Qed.

Lemma spelling_unit_type (s c : string) :
  spelling_of s c -> unit_type_of s (type_of_code c) /\ is_code c = true.
Proof.
  unfold spelling_of, unit_type_of. simpl. intros H.
  apply normalized_allowed in H as (H & Hc & _). now split.
Qed.

Lemma unit_type_spelling (s t : string) :
  unit_type_of s t ->
  exists c, spelling_of s c /\ is_code c = true /\ type_of_code c = t.
Proof.
  unfold spelling_of, unit_type_of. simpl. apply allowed_normalized.
Qed.

Lemma unit_type_nonempty (s t : string) :
  unit_type_of s t -> nonempty_str (JStr s) = Some s.
Proof.
  unfold unit_type_of. simpl.
  destruct (String.eqb_spec (PyStr.strip s) "") as [->|_]; [discriminate|reflexivity].
Qed.

(* ------------------------------------------------------------------ *)
(** ** Lemmas on the handler *)

Lemma convert_has_fields (request : Request) (value from_unit to_unit : json) :
  has_fields request value from_unit to_unit ->
  convert request = Returned (convert_fields value from_unit to_unit).
Proof.
  intros (Hj & kvs & Hb & Hv & Hf & Ht).
  unfold convert. rewrite Hj, Hb. simpl.
  now rewrite Hv, Hf, Ht.
Qed.

Lemma has_fields_request_of (value : json) (from_unit to_unit : string) :
  has_fields (request_of value from_unit to_unit) value (JStr from_unit) (JStr to_unit).
Proof.
  split; [reflexivity|]. eexists. repeat split.
Qed.

Lemma dispatch_same (c : string) (v : float) :
  is_code c = true -> dispatch (type_of_code c) c c v = inr v.
Proof.
  intros H. apply is_code_cases in H.
  repeat (destruct H as [H|H]; [subst; reflexivity|]). now subst.
Qed.

Lemma dispatch_distinct (c1 c2 : string) (v : float) :
  is_code c1 = true -> is_code c2 = true ->
  type_of_code c1 = type_of_code c2 -> c1 <> c2 ->
  exists x, spec_formula c1 c2 v = Some x /\
            dispatch (type_of_code c1) c1 c2 v = inr x.
Proof.
  intros H1 H2 Ht Hne.
  apply is_code_cases in H1. apply is_code_cases in H2.
  destruct H1 as [-> | [-> | [-> | [-> | [-> | ->]]]]];
    destruct H2 as [-> | [-> | [-> | [-> | [-> | ->]]]]];
    try discriminate Ht; try (now elim Hne);
    eexists; split; reflexivity.
Qed.

(** A value is admissible for a unit type when it is not a negative length
    or weight: the condition of step 7. *)
Lemma convert_units_valid (v : float) (fu tu c1 c2 : string) :
  normalize (Some fu) = Some c1 -> normalize (Some tu) = Some c2 ->
  type_of_code c1 = type_of_code c2 ->
  ((type_of_code c1 == "length") || (type_of_code c1 == "weight"))
  && (v <? 0)%float = false ->
  convert_units v fu tu =
  match dispatch (type_of_code c1) c1 c2 v with
  | inl r => r
  | inr x => ok_response v fu tu (PyFloat.round6 x) (type_of_code c1)
  end.
Proof.
  intros H1 H2 Ht Hv. unfold convert_units.
  pose proof H1 as A1. pose proof H2 as A2. simpl in A1, A2.
  apply normalized_allowed in A1 as (A1 & _ & _).
  apply normalized_allowed in A2 as (A2 & _ & _).
  change (get_unit_type (Some fu)) with (dict_get ALLOWED_UNITS (PyStr.lower fu)).
  change (get_unit_type (Some tu)) with (dict_get ALLOWED_UNITS (PyStr.lower tu)).
  rewrite A1, A2, <- Ht, String.eqb_refl. cbn [negb].
  rewrite H1, H2, Hv.
  now destruct (dispatch (type_of_code c1) c1 c2 v).
Qed.

Lemma convert_fields_valid (value : json) (v : float) (fu tu c1 c2 : string) :
  py_float value = Some v ->
  spelling_of fu c1 -> spelling_of tu c2 ->
  type_of_code c1 = type_of_code c2 ->
  ((type_of_code c1 == "length") || (type_of_code c1 == "weight"))
  && (v <? 0)%float = false ->
  convert_fields value (JStr fu) (JStr tu) =
  match dispatch (type_of_code c1) c1 c2 v with
  | inl r => r
  | inr x => ok_response v (PyStr.strip fu) (PyStr.strip tu) (PyFloat.round6 x)
                         (type_of_code c1)
  end.
Proof.
  intros Hv H1 H2 Ht Hneg. unfold convert_fields. rewrite Hv.
  destruct (spelling_unit_type _ _ H1) as [U1 _].
  destruct (spelling_unit_type _ _ H2) as [U2 _].
  rewrite (unit_type_nonempty _ _ U1), (unit_type_nonempty _ _ U2).
  now apply convert_units_valid.
Qed.

Lemma unit_type_code (s t c : string) :
  unit_type_of s t -> spelling_of s c -> t = type_of_code c /\ is_code c = true.
Proof.
  intros Ht Hc. destruct (spelling_unit_type _ _ Hc) as [Ht' Hcode].
  unfold unit_type_of in Ht, Ht'. rewrite Ht in Ht'. now injection Ht' as ->.
Qed.

Lemma dispatch_valid (c1 c2 : string) (v : float) :
  is_code c1 = true -> is_code c2 = true ->
  type_of_code c1 = type_of_code c2 ->
  exists b, dispatch (type_of_code c1) c1 c2 v = inr (branch_value b v).
Proof.
  intros H1 H2 Ht.
  apply is_code_cases in H1. apply is_code_cases in H2.
  destruct H1 as [-> | [-> | [-> | [-> | [-> | ->]]]]];
    destruct H2 as [-> | [-> | [-> | [-> | [-> | ->]]]]];
    try discriminate Ht;
    first [ now exists Identity | now exists MilesToKm | now exists KmToMiles
          | now exists LbToKg | now exists KgToLb | now exists CToF
          | now exists FToC ].
Qed.

(* ------------------------------------------------------------------ *)
(** ** Conversion results *)

(** C1. A request that passes validation (a value [float] accepts, two
    recognized units of one type, no negative length or weight) and whose
    units have distinct canonical codes is answered with the rounding of a
    converted value that is the specification's formula for the code pair. *)
Theorem conversion_follows_spec_formula
  (request : Request) (value : json) (v : float) (fu tu t c1 c2 : string) :
  has_fields request value (JStr fu) (JStr tu) ->
  py_float value = Some v ->
  unit_type_of fu t -> unit_type_of tu t ->
  spelling_of fu c1 -> spelling_of tu c2 ->
  c1 <> c2 ->
  ((t == "length") || (t == "weight")) && (v <? 0)%float = false ->
  exists converted,
    spec_formula c1 c2 v = Some converted /\
    dispatch t c1 c2 v = inr converted /\
    convert request =
    Returned (ok_response v (PyStr.strip fu) (PyStr.strip tu)
                          (PyFloat.round6 converted) t).
Proof.
  intros Hreq Hv T1 T2 S1 S2 Hne Hadm.
  destruct (unit_type_code _ _ _ T1 S1) as [-> C1].
  destruct (unit_type_code _ _ _ T2 S2) as [Ht C2].
  destruct (dispatch_distinct c1 c2 v C1 C2 Ht Hne) as (x & Hx & Hd).
  exists x. repeat split; try assumption.
  rewrite (convert_has_fields _ _ _ _ Hreq).
  rewrite (convert_fields_valid value v fu tu c1 c2 Hv S1 S2 Ht Hadm).
  now rewrite Hd.
Qed.

Lemma conversion_follows_spec_formula_witness :
  exists converted,
    spec_formula "mi" "km" 5 = Some converted /\
    dispatch "length" "mi" "km" 5 = inr converted /\
    convert (request_of (JInt 5) " Miles" "KM") =
    Returned (ok_response 5 "Miles" "KM" (PyFloat.round6 converted) "length").
Proof.
  apply (conversion_follows_spec_formula
           (request_of (JInt 5) " Miles" "KM") (JInt 5) 5 " Miles" "KM"
           "length" "mi" "km");
    try reflexivity.
  - split; [reflexivity|]. eexists. repeat split.
  - discriminate.
Defined.

(** C2. Identity: when both unit strings are spellings of one canonical
    code and the value is admissible for its type, the converted value is
    the value itself rounded to 6 decimal places. *)
Theorem identity_conversion
  (request : Request) (value : json) (v : float) (fu tu c : string) :
  has_fields request value (JStr fu) (JStr tu) ->
  py_float value = Some v ->
  spelling_of fu c -> spelling_of tu c ->
  ((type_of_code c == "length") || (type_of_code c == "weight"))
  && (v <? 0)%float = false ->
  convert request =
  Returned (ok_response v (PyStr.strip fu) (PyStr.strip tu)
                        (PyFloat.round6 v) (type_of_code c)).
Proof.
  intros Hreq Hv S1 S2 Hadm.
  destruct (spelling_unit_type _ _ S1) as [_ C].
  rewrite (convert_has_fields _ _ _ _ Hreq).
  rewrite (convert_fields_valid value v fu tu c c Hv S1 S2 eq_refl Hadm).
  now rewrite (dispatch_same c v C).
Qed.

Lemma identity_conversion_witness :
  convert (request_of (JFloat 2.5) "Pounds" " lb ") =
  Returned (ok_response 2.5 "Pounds" "lb" (PyFloat.round6 2.5) "weight").
Proof.
  apply (identity_conversion
           (request_of (JFloat 2.5) "Pounds" " lb ") (JFloat 2.5) 2.5
           "Pounds" " lb " "lb");
    try reflexivity.
  split; [reflexivity|]. eexists. repeat split.
Defined.

(* ------------------------------------------------------------------ *)
(** ** Validation *)

(** C4. When both units are of one type and the number read from [value]
    is negative, a length or weight is refused with status 400 and the
    error "Negative value not allowed for selected unit type" (the response
    carries no converted value), while a temperature is converted (status
    200); and -10 from celsius to fahrenheit gives [converted_value] 14.0. *)
Theorem negative_value_handling
  (request : Request) (value : json) (v : float) (fu tu t : string) :
  has_fields request value (JStr fu) (JStr tu) ->
  py_float value = Some v ->
  unit_type_of fu t -> unit_type_of tu t ->
  (v <? 0)%float = true ->
  (t = "length" \/ t = "weight" ->
   convert request =
   Returned (error_response 400
               [("error", JStr "Negative value not allowed for selected unit type");
                ("unit_type", JStr t);
                ("provided_value", JFloat v)])) /\
  (t = "temperature" ->
   exists x, convert request =
             Returned (ok_response v (PyStr.strip fu) (PyStr.strip tu) x t)) /\
  convert (request_of (JInt (-10)) "celsius" "fahrenheit") =
  Returned (ok_response (-10) "celsius" "fahrenheit" 14 "temperature").
Proof.
  intros Hreq Hv T1 T2 Hneg.
  rewrite (convert_has_fields _ _ _ _ Hreq).
  destruct (unit_type_spelling _ _ T1) as (c1 & S1 & C1 & E1).
  destruct (unit_type_spelling _ _ T2) as (c2 & S2 & C2 & E2).
  repeat split.
  - intros Ht. unfold convert_fields. rewrite Hv.
    rewrite (unit_type_nonempty _ _ T1), (unit_type_nonempty _ _ T2).
    unfold convert_units. unfold unit_type_of in T1, T2. rewrite T1, T2.
    rewrite String.eqb_refl. cbn [negb].
    unfold spelling_of in S1, S2. rewrite S1, S2, Hneg.
    now destruct Ht as [-> | ->].
  - intros ->.
    assert (Ht : type_of_code c1 = type_of_code c2) by congruence.
    rewrite (convert_fields_valid value v fu tu c1 c2 Hv S1 S2 Ht)
      by now rewrite E1.
    destruct (dispatch_valid c1 c2 v C1 C2 Ht) as [b ->].
    rewrite E1. now eexists.
Qed.

Lemma negative_value_handling_witness :
  (("length" = "length" \/ "length" = "weight" ->
    convert (request_of (JInt (-5)) "mi" "km") =
    Returned (error_response 400
                [("error", JStr "Negative value not allowed for selected unit type");
                 ("unit_type", JStr "length");
                 ("provided_value", JFloat (-5))])) /\
   ("length" = "temperature" ->
    exists x, convert (request_of (JInt (-5)) "mi" "km") =
              Returned (ok_response (-5) (PyStr.strip "mi") (PyStr.strip "km")
                                    x "length")) /\
   convert (request_of (JInt (-10)) "celsius" "fahrenheit") =
   Returned (ok_response (-10) "celsius" "fahrenheit" 14 "temperature")).
Proof.
  apply (negative_value_handling
           (request_of (JInt (-5)) "mi" "km") (JInt (-5)) (-5) "mi" "km" "length");
    try reflexivity.
  split; [reflexivity|]. eexists. repeat split.
Defined.

(** C10. A JSON boolean is accepted as a value: with two recognized units
    of one type, [true] (resp. [false]) is handled as the number 1.0 (resp.
    0.0), which is reported as [original_value] and converted by one of the
    branches of step 8. *)
Theorem boolean_value_is_converted
  (request : Request) (b : bool) (fu tu t : string) :
  has_fields request (JBool b) (JStr fu) (JStr tu) ->
  unit_type_of fu t -> unit_type_of tu t ->
  let v := if b then 1%float else 0%float in
  convert request = Returned (convert_fields (JFloat v) (JStr fu) (JStr tu)) /\
  exists c1 c2 br,
    spelling_of fu c1 /\ spelling_of tu c2 /\
    dispatch t c1 c2 v = inr (branch_value br v) /\
    convert request =
    Returned (ok_response v (PyStr.strip fu) (PyStr.strip tu)
                          (PyFloat.round6 (branch_value br v)) t).
Proof.
  intros Hreq T1 T2 v.
  rewrite (convert_has_fields _ _ _ _ Hreq).
  split; [reflexivity|].
  destruct (unit_type_spelling _ _ T1) as (c1 & S1 & C1 & E1).
  destruct (unit_type_spelling _ _ T2) as (c2 & S2 & C2 & E2).
  assert (Ht : type_of_code c1 = type_of_code c2) by congruence.
  destruct (dispatch_valid c1 c2 v C1 C2 Ht) as [br Hd].
  exists c1, c2, br. repeat split; try assumption.
  - now rewrite <- E1.
  - assert (Hv : (v <? 0)%float = false) by (subst v; now destruct b).
    rewrite (convert_fields_valid (JBool b) v fu tu c1 c2 eq_refl S1 S2 Ht)
      by (rewrite Hv; apply andb_false_r).
    now rewrite Hd, E1.
Qed.

Lemma boolean_value_is_converted_witness :
  convert (request_of (JBool true) "kg" "lbs") =
  Returned (convert_fields (JFloat 1) (JStr "kg") (JStr "lbs")) /\
  exists c1 c2 br,
    spelling_of "kg" c1 /\ spelling_of "lbs" c2 /\
    dispatch "weight" c1 c2 1 = inr (branch_value br 1) /\
    convert (request_of (JBool true) "kg" "lbs") =
    Returned (ok_response 1 (PyStr.strip "kg") (PyStr.strip "lbs")
                          (PyFloat.round6 (branch_value br 1)) "weight").
Proof.
  apply (boolean_value_is_converted
           (request_of (JBool true) "kg" "lbs") true "kg" "lbs" "weight");
    try reflexivity.
  split; [reflexivity|]. eexists. repeat split.
Defined.

(** *** The list of allowed units *)

Lemma insert_perm (x : string) (l : list string) :
  Permutation (x :: l) (PyStr.insert x l).
Proof.
  induction l as [|y l IH]; simpl; [reflexivity|].
  destruct (String.leb x y); [reflexivity|].
  rewrite perm_swap. now constructor.
Qed.

Lemma sorted_perm (l : list string) : Permutation l (PyStr.sorted l).
Proof.
  induction l as [|x l IH]; simpl; [constructor|].
  rewrite <- insert_perm. now constructor.
Qed.

Lemma insert_sorted (x : string) (l : list string) :
  Sorted (fun a b => String.leb a b = true) l ->
  Sorted (fun a b => String.leb a b = true) (PyStr.insert x l).
Proof.
  induction 1 as [|y l Hs IH Hd]; simpl; [repeat constructor|].
  destruct (String.leb x y) eqn:E.
  - repeat constructor; assumption.
  - constructor; [exact IH|].
    assert (Hyx : String.leb y x = true).
    { destruct (String.leb_total x y) as [H|H]; [congruence|exact H]. }
    destruct Hd as [|z l Hyz]; simpl; [now constructor|].
    destruct (String.leb x z); now constructor.
Qed.

Lemma sorted_sorted (l : list string) :
  Sorted (fun a b => String.leb a b = true) (PyStr.sorted l).
Proof.
  induction l as [|x l IH]; simpl; [constructor|].
  now apply insert_sorted.
Qed.

(** C5. A request that passes the checks before step 4 (a value [float]
    accepts, two unit strings that are not blank) and has a unit that, once
    stripped and lower-cased, is not a key of the registry is answered with
    status 422 and the error "Unsupported from_unit" (or "Unsupported
    to_unit" when only the second is unknown), the stripped unit, and
    [allowed_units]: a non-empty list, sorted, without duplicates, whose
    members are the keys of the registry, that is, the lower-case forms of
    the accepted spellings. *)
Theorem unknown_unit_rejected
  (request : Request) (value : json) (v : float) (fu tu : string) :
  has_fields request value (JStr fu) (JStr tu) ->
  py_float value = Some v ->
  PyStr.strip fu <> "" -> PyStr.strip tu <> "" ->
  get_unit_type (Some (PyStr.strip fu)) = None \/
  get_unit_type (Some (PyStr.strip tu)) = None ->
  exists which provided allowed,
    convert request =
    Returned (error_response 422 [("error", JStr which);
                                  ("provided", JStr provided);
                                  ("allowed_units", JList (map JStr allowed))]) /\
    ((get_unit_type (Some (PyStr.strip fu)) = None /\
      which = "Unsupported from_unit" /\ provided = PyStr.strip fu) \/
     (get_unit_type (Some (PyStr.strip fu)) <> None /\
      which = "Unsupported to_unit" /\ provided = PyStr.strip tu)) /\
    allowed <> [] /\
    Sorted (fun a b => String.leb a b = true) allowed /\
    NoDup allowed /\
    (forall k, In k allowed <-> In k (dict_keys ALLOWED_UNITS)) /\
    (forall s, get_unit_type (Some s) <> None <-> In (PyStr.lower s) allowed).
Proof.
  intros Hreq Hv Hf Ht Hunk.
  rewrite (convert_has_fields _ _ _ _ Hreq).
  unfold convert_fields, nonempty_str. rewrite Hv.
  apply String.eqb_neq in Hf, Ht. rewrite Hf, Ht.
  assert (Hperm : forall k, In k (PyStr.sorted (dict_keys ALLOWED_UNITS)) <->
                            In k (dict_keys ALLOWED_UNITS)).
  { intros k. split; apply Permutation_in;
      [symmetry|]; apply sorted_perm. }
  assert (Hrest :
    PyStr.sorted (dict_keys ALLOWED_UNITS) <> [] /\
    Sorted (fun a b => String.leb a b = true) (PyStr.sorted (dict_keys ALLOWED_UNITS)) /\
    NoDup (PyStr.sorted (dict_keys ALLOWED_UNITS)) /\
    (forall k, In k (PyStr.sorted (dict_keys ALLOWED_UNITS)) <->
               In k (dict_keys ALLOWED_UNITS)) /\
    (forall s, get_unit_type (Some s) <> None <->
               In (PyStr.lower s) (PyStr.sorted (dict_keys ALLOWED_UNITS)))).
  { split; [discriminate|]. split; [apply sorted_sorted|].
    split; [|split; [exact Hperm|]].
    - apply (Permutation_NoDup (sorted_perm _)).
      repeat (constructor; [simpl; intuition discriminate|]). constructor.
    - intros s. rewrite Hperm, dict_get_keys. reflexivity. }
  unfold convert_units.
  destruct (get_unit_type (Some (PyStr.strip fu))) as [ft|] eqn:E1.
  - destruct Hunk as [Hunk|Hunk]; [discriminate|]. rewrite Hunk.
    exists "Unsupported to_unit", (PyStr.strip tu),
      (PyStr.sorted (dict_keys ALLOWED_UNITS)).
    split; [reflexivity|]. split; [|exact Hrest].
    right. repeat split. discriminate.
  - exists "Unsupported from_unit", (PyStr.strip fu),
      (PyStr.sorted (dict_keys ALLOWED_UNITS)).
    split; [reflexivity|]. split; [|exact Hrest].
    left. now repeat split.
Qed.

Lemma unknown_unit_rejected_witness :
  exists which provided allowed,
    convert (request_of (JInt 5) "banana" "km") =
    Returned (error_response 422 [("error", JStr which);
                                  ("provided", JStr provided);
                                  ("allowed_units", JList (map JStr allowed))]) /\
    ((get_unit_type (Some (PyStr.strip "banana")) = None /\
      which = "Unsupported from_unit" /\ provided = PyStr.strip "banana") \/
     (get_unit_type (Some (PyStr.strip "banana")) <> None /\
      which = "Unsupported to_unit" /\ provided = PyStr.strip "km")) /\
    allowed <> [] /\
    Sorted (fun a b => String.leb a b = true) allowed /\
    NoDup allowed /\
    (forall k, In k allowed <-> In k (dict_keys ALLOWED_UNITS)) /\
    (forall s, get_unit_type (Some s) <> None <-> In (PyStr.lower s) allowed).
Proof.
  apply (unknown_unit_rejected (request_of (JInt 5) "banana" "km") (JInt 5) 5).
  - split; [reflexivity|]. eexists. repeat split.
  - reflexivity.
  - discriminate.
  - discriminate.
  - left. reflexivity.
Defined.

(** *** The responses of the handler, by cases *)

Lemma missing_fields_obj (kvs : list (string * json)) :
  missing_fields (JObj kvs) ["value"; "from_unit"; "to_unit"] = Some [] ->
  exists value f t,
    dict_get kvs "value" = Some value /\
    dict_get kvs "from_unit" = Some f /\
    dict_get kvs "to_unit" = Some t.
Proof.
  cbn [missing_fields py_in].
  destruct (dict_get kvs "value") as [value|]; [|destruct (dict_get kvs "to_unit");
    destruct (dict_get kvs "from_unit"); discriminate].
  destruct (dict_get kvs "from_unit") as [f|]; [|destruct (dict_get kvs "to_unit");
    discriminate].
  destruct (dict_get kvs "to_unit") as [t|]; [|discriminate].
  intros _. now exists value, f, t.
Qed.

(** A returned response is the one of step 1, the one of step 2, or the
    response of [convert_fields] on the three fields of an object body. *)
Lemma convert_returned_inv (request : Request) (r : Response) :
  convert request = Returned r ->
  status r = 422 /\ error_of r = Some "Request must be JSON" \/
  status r = 422 /\ error_of r = Some "Missing fields" \/
  exists value f t,
    has_fields request value f t /\ r = convert_fields value f t.
Proof.
  unfold convert. destruct (is_json request) eqn:Hj; cbn [negb].
  2: { intros [= <-]. left. now split. }
  destruct (missing_fields (get_json request) ["value"; "from_unit"; "to_unit"])
    as [[|m ms]|] eqn:Hm; [| |discriminate].
  2: { intros [= <-]. right. left. now split. }
  destruct (get_json request) as [| | | | s | l | kvs] eqn:Hb;
    cbn [body_get]; try discriminate.
  destruct (missing_fields_obj kvs Hm) as (value & f & t & Hv & Hf & Ht).
  rewrite Hv, Hf, Ht. intros [= <-]. right. right.
  exists value, f, t. split; [|reflexivity].
  split; [exact Hj|]. exists kvs. now repeat split.
Qed.

(** The responses of [convert_units], by cases. *)
Lemma convert_units_cases (v : float) (fu tu : string) :
  let r := convert_units v fu tu in
  (status r = 422 /\
   (error_of r = Some "Unsupported from_unit" \/
    error_of r = Some "Unsupported to_unit")) \/
  (status r = 400 /\
   (error_of r = Some "Unsupported conversion types" \/
    error_of r = Some "Negative value not allowed for selected unit type")) \/
  exists ft c1 c2 b,
    get_unit_type (Some fu) = Some ft /\ get_unit_type (Some tu) = Some ft /\
    normalize (Some fu) = Some c1 /\ normalize (Some tu) = Some c2 /\
    ((ft == "length") || (ft == "weight")) && (v <? 0)%float = false /\
    dispatch ft c1 c2 v = inr (branch_value b v) /\
    r = ok_response v fu tu (PyFloat.round6 (branch_value b v)) ft.
Proof.
  unfold convert_units.
  destruct (get_unit_type (Some fu)) as [ft|] eqn:T1; [|left; split; [reflexivity|now left]].
  destruct (get_unit_type (Some tu)) as [tt|] eqn:T2; [|left; split; [reflexivity|now right]].
  destruct (String.eqb_spec ft tt) as [<-|Hne]; cbn [negb];
    [|right; left; split; [reflexivity|now left]].
  destruct (allowed_normalized _ _ T1) as (c1 & N1 & C1 & E1).
  destruct (allowed_normalized _ _ T2) as (c2 & N2 & C2 & E2).
  change (normalize (Some fu)) with (dict_get NORMALIZE (PyStr.lower fu)).
  change (normalize (Some tu)) with (dict_get NORMALIZE (PyStr.lower tu)).
  rewrite N1, N2.
  destruct (((ft == "length") || (ft == "weight")) && (v <? 0)%float) eqn:Hneg;
    [right; left; split; [reflexivity|now right]|].
  assert (Ht : type_of_code c1 = type_of_code c2) by congruence.
  destruct (dispatch_valid c1 c2 v C1 C2 Ht) as [b Hd].
  rewrite E1 in Hd. rewrite Hd.
  right. right. exists ft, c1, c2, b. now repeat split.
Qed.

(** The responses of [convert_fields], by cases. *)
Lemma convert_fields_cases (value f t : json) :
  let r := convert_fields value f t in
  (status r = 422 /\ py_float value = None /\
   error_of r = Some "value must be a number") \/
  (status r = 422 /\ nonempty_str f = None /\
   error_of r = Some "from_unit must be a non-empty string") \/
  (status r = 422 /\ nonempty_str t = None /\
   error_of r = Some "to_unit must be a non-empty string") \/
  exists v fu tu,
    py_float value = Some v /\ f = JStr fu /\ t = JStr tu /\
    r = convert_units v (PyStr.strip fu) (PyStr.strip tu).
Proof.
  unfold convert_fields.
  destruct (py_float value) as [v|] eqn:Hv; [|now left].
  destruct (nonempty_str f) as [fu|] eqn:Hf; [|right; now left].
  destruct (nonempty_str t) as [tu|] eqn:Ht; [|right; right; now left].
  right. right. right. exists v, fu, tu.
  destruct f; try discriminate. destruct t; try discriminate.
  simpl in Hf, Ht.
  destruct (PyStr.strip s == ""); [discriminate|]. injection Hf as ->.
  destruct (PyStr.strip s0 == ""); [discriminate|]. injection Ht as ->.
  now repeat split.
Qed.

(** C6, as the specification orders the checks (units before value): with
    a value [float] refuses and a blank from_unit, the error reported would
    be the one of the unit.  The handler reports the one of the value. *)
Lemma unit_check_is_not_first :
  ~ (forall request value f t r,
        has_fields request value f t ->
        py_float value = None ->
        nonempty_str f = None \/ nonempty_str t = None ->
        convert request = Returned r ->
        error_of r = Some "from_unit must be a non-empty string" \/
        error_of r = Some "to_unit must be a non-empty string").
Proof.
  intros H.
  destruct (H (request_of JNull "" "km") JNull (JStr "") (JStr "km") _
              (has_fields_request_of _ _ _) eq_refl (or_introl eq_refl) eq_refl)
    as [E|E]; discriminate E.
Qed.

(** C6, amended. The handler checks the value first: when [float] refuses
    the value, the response is the 422 "value must be a number" with the
    value provided, whatever the unit fields hold; the errors of from_unit
    and then of to_unit are reported only for a value [float] accepts. *)
Theorem value_checked_before_units (request : Request) (value f t : json) :
  has_fields request value f t ->
  (py_float value = None ->
   convert request =
   Returned (error_response 422 [("error", JStr "value must be a number");
                                 ("provided", value)])) /\
  (py_float value <> None -> nonempty_str f = None ->
   convert request =
   Returned (error_response 422
               [("error", JStr "from_unit must be a non-empty string");
                ("provided", f)])) /\
  (py_float value <> None -> nonempty_str f <> None -> nonempty_str t = None ->
   convert request =
   Returned (error_response 422
               [("error", JStr "to_unit must be a non-empty string");
                ("provided", t)])).
Proof.
  intros Hreq. rewrite (convert_has_fields _ _ _ _ Hreq).
  unfold convert_fields. repeat split.
  - now intros ->.
  - intros Hv ->. now destruct (py_float value).
  - intros Hv Hf ->. destruct (py_float value); [|now elim Hv].
    now destruct (nonempty_str f).
Qed.

Lemma value_checked_before_units_witness :
  (py_float (JStr "abc") = None ->
   convert (request_of (JStr "abc") "" "km") =
   Returned (error_response 422 [("error", JStr "value must be a number");
                                 ("provided", JStr "abc")])) /\
  (py_float (JStr "abc") <> None -> nonempty_str (JStr "") = None ->
   convert (request_of (JStr "abc") "" "km") =
   Returned (error_response 422
               [("error", JStr "from_unit must be a non-empty string");
                ("provided", JStr "")])) /\
  (py_float (JStr "abc") <> None -> nonempty_str (JStr "") <> None ->
   nonempty_str (JStr "km") = None ->
   convert (request_of (JStr "abc") "" "km") =
   Returned (error_response 422
               [("error", JStr "to_unit must be a non-empty string");
                ("provided", JStr "km")])).
Proof.
  apply (value_checked_before_units (request_of (JStr "abc") "" "km")).
  split; [reflexivity|]. eexists. repeat split.
Defined.

(** C7, as stated: the result would echo the unit strings with their
    leading and trailing white space.  The handler strips them first. *)
Lemma echo_is_not_verbatim :
  ~ (forall request value fu tu r,
        has_fields request value (JStr fu) (JStr tu) ->
        convert request = Returned r ->
        status r = 200 ->
        dict_get (payload r) "original_unit" = Some (JStr fu) /\
        dict_get (payload r) "converted_unit" = Some (JStr tu)).
Proof.
  intros H.
  destruct (H (request_of (JInt 5) " Mi" "km ") (JInt 5) " Mi" "km " _
              (has_fields_request_of _ _ _) eq_refl eq_refl)
    as [E _]; discriminate E.
Qed.

(** C7, amended. Every successful conversion comes from an object body
    whose from_unit and to_unit are strings, and its [original_unit] and
    [converted_unit] are these strings with leading and trailing white
    space stripped, in the caller's case: not the canonical codes. *)
Theorem echo_of_stripped_units (request : Request) (r : Response) :
  convert request = Returned r ->
  status r = 200 ->
  exists value fu tu,
    has_fields request value (JStr fu) (JStr tu) /\
    dict_get (payload r) "original_unit" = Some (JStr (PyStr.strip fu)) /\
    dict_get (payload r) "converted_unit" = Some (JStr (PyStr.strip tu)).
Proof.
  intros Hc Hs.
  destruct (convert_returned_inv _ _ Hc) as [[E _]|[[E _]|(value & f & t & Hreq & ->)]];
    [rewrite E in Hs; discriminate Hs..|].
  destruct (convert_fields_cases value f t)
    as [[E _]|[[E _]|[[E _]|(v & fu & tu & Hv & -> & -> & E)]]];
    [rewrite E in Hs; discriminate Hs..|].
  exists value, fu, tu. split; [exact Hreq|].
  rewrite E in Hs |- *.
  destruct (convert_units_cases v (PyStr.strip fu) (PyStr.strip tu))
    as [[E' _]|[[E' _]|(ft & c1 & c2 & b & _ & _ & _ & _ & _ & _ & E')]];
    [rewrite E' in Hs; discriminate Hs..|].
  rewrite E'. now split.
Qed.

Lemma echo_of_stripped_units_witness :
  exists value fu tu,
    has_fields (request_of (JInt 5) " Mi" "km ") value (JStr fu) (JStr tu) /\
    dict_get [("original_value", JFloat 5); ("original_unit", JStr "Mi");
              ("converted_value", JFloat 8.04672); ("converted_unit", JStr "km");
              ("conversion_type", JStr "length")] "original_unit"
    = Some (JStr (PyStr.strip fu)) /\
    dict_get [("original_value", JFloat 5); ("original_unit", JStr "Mi");
              ("converted_value", JFloat 8.04672); ("converted_unit", JStr "km");
              ("conversion_type", JStr "length")] "converted_unit"
    = Some (JStr (PyStr.strip tu)).
Proof.
  apply (echo_of_stripped_units
           (request_of (JInt 5) " Mi" "km ")
           (ok_response 5 "Mi" "km" 8.04672 "length"));
    reflexivity.
Defined.

(* ------------------------------------------------------------------ *)
(** ** The dispatch of step 8 *)

(** C8, as stated: a fall-back branch, were it reached, would signal the
    internal error (status 500).  The fall-back of a unit type answers
    with status 400. *)
Lemma pair_fallback_is_not_internal :
  ~ (forall t c1 c2 v r, dispatch t c1 c2 v = inl r -> status r = 500).
Proof.
  intros H.
  discriminate (H "length" "mi" "c" 1%float _ eq_refl).
Qed.

(** C8, amended. No response of the handler is one of the fall-backs of
    step 8: a request that reaches step 8 (two recognized units of one
    type, with their codes) takes the identity branch or one of the six
    formula branches.  Were a fall-back reached, the one of a unit type
    answers 400 "Unsupported <type> conversion pair" and only the one for
    an unknown unit type answers 500 "Unhandled unit type". *)
Theorem dispatch_is_closed (request : Request) (r : Response) :
  convert request = Returned r ->
  (error_of r <> Some "Unsupported length conversion pair" /\
   error_of r <> Some "Unsupported weight conversion pair" /\
   error_of r <> Some "Unsupported temperature conversion pair" /\
   error_of r <> Some "Unhandled unit type" /\
   error_of r <> Some "Unit normalization failed") /\
  (forall v fu tu ft tt c1 c2,
      get_unit_type (Some fu) = Some ft -> get_unit_type (Some tu) = Some tt ->
      ft = tt ->
      normalize (Some fu) = Some c1 -> normalize (Some tu) = Some c2 ->
      exists b, dispatch ft c1 c2 v = inr (branch_value b v)) /\
  (forall t c1 c2 v r',
      dispatch t c1 c2 v = inl r' ->
      (In t ["length"; "weight"; "temperature"] /\
       r' = error_response 400
              [("error", JStr ("Unsupported " ++ t ++ " conversion pair"))]) \/
      (~ In t ["length"; "weight"; "temperature"] /\
       r' = error_response 500 [("error", JStr "Unhandled unit type")])).
Proof.
  intros Hc. split; [|split].
  - destruct (convert_returned_inv _ _ Hc)
      as [[_ E]|[[_ E]|(value & f & t & _ & ->)]];
      [rewrite E; repeat split; discriminate..|].
    destruct (convert_fields_cases value f t)
      as [(_ & _ & E)|[(_ & _ & E)|[(_ & _ & E)|(v & fu & tu & _ & _ & _ & E)]]];
      [rewrite E; repeat split; discriminate..|].
    rewrite E.
    destruct (convert_units_cases v (PyStr.strip fu) (PyStr.strip tu))
      as [[_ [E'|E']]|[[_ [E'|E']]|(ft & c1 & c2 & b & _ & _ & _ & _ & _ & _ & E')]];
      rewrite E'; repeat split; discriminate.
  - intros v fu tu ft tt c1 c2 T1 T2 <- N1 N2.
    change (dict_get NORMALIZE (PyStr.lower fu) = Some c1) in N1.
    change (dict_get NORMALIZE (PyStr.lower tu) = Some c2) in N2.
    change (dict_get ALLOWED_UNITS (PyStr.lower fu) = Some ft) in T1.
    change (dict_get ALLOWED_UNITS (PyStr.lower tu) = Some ft) in T2.
    apply normalized_allowed in N1 as (A1 & C1 & _).
    apply normalized_allowed in N2 as (A2 & C2 & _).
    rewrite T1 in A1. rewrite T2 in A2.
    injection A1 as ->. injection A2 as A2.
    now apply dispatch_valid.
  - intros t c1 c2 v r'. unfold dispatch.
    destruct (String.eqb_spec t "length") as [->|H1].
    { repeat match goal with
             | |- context [if ?b then _ else _] => destruct b
             end; intros [= <-]; left; simpl; auto. }
    destruct (String.eqb_spec t "weight") as [->|H2].
    { repeat match goal with
             | |- context [if ?b then _ else _] => destruct b
             end; intros [= <-]; left; simpl; auto. }
    destruct (String.eqb_spec t "temperature") as [->|H3].
    { repeat match goal with
             | |- context [if ?b then _ else _] => destruct b
             end; intros [= <-]; left; simpl; auto. }
    intros [= <-]. right. split; [|reflexivity].
    simpl. intuition congruence.
Qed.

Lemma dispatch_is_closed_witness :
  (error_of (ok_response 5 "mi" "km" 8.04672 "length")
   <> Some "Unsupported length conversion pair" /\
   error_of (ok_response 5 "mi" "km" 8.04672 "length")
   <> Some "Unsupported weight conversion pair" /\
   error_of (ok_response 5 "mi" "km" 8.04672 "length")
   <> Some "Unsupported temperature conversion pair" /\
   error_of (ok_response 5 "mi" "km" 8.04672 "length")
   <> Some "Unhandled unit type" /\
   error_of (ok_response 5 "mi" "km" 8.04672 "length")
   <> Some "Unit normalization failed") /\
  (forall v fu tu ft tt c1 c2,
      get_unit_type (Some fu) = Some ft -> get_unit_type (Some tu) = Some tt ->
      ft = tt ->
      normalize (Some fu) = Some c1 -> normalize (Some tu) = Some c2 ->
      exists b, dispatch ft c1 c2 v = inr (branch_value b v)) /\
  (forall t c1 c2 v r',
      dispatch t c1 c2 v = inl r' ->
      (In t ["length"; "weight"; "temperature"] /\
       r' = error_response 400
              [("error", JStr ("Unsupported " ++ t ++ " conversion pair"))]) \/
      (~ In t ["length"; "weight"; "temperature"] /\
       r' = error_response 500 [("error", JStr "Unhandled unit type")])).
Proof.
  apply (dispatch_is_closed (request_of (JInt 5) "mi" "km")
                            (ok_response 5 "mi" "km" 8.04672 "length")).
  reflexivity.
Defined.

(** C9. Two spellings of one canonical code (case variants included) are
    interchangeable, as from_unit and as to_unit: for the same value and
    the same other unit, the two requests end with the same status, the
    same [converted_value] and the same [conversion_type]. *)
Theorem spelling_congruence (value : json) (s1 s2 other c : string) :
  normalize (Some s1) = Some c ->
  normalize (Some s2) = Some c ->
  summary (convert (request_of value s1 other)) =
  summary (convert (request_of value s2 other)) /\
  summary (convert (request_of value other s1)) =
  summary (convert (request_of value other s2)).
Proof.
  intros N1 N2.
  rewrite !(convert_has_fields _ _ _ _ (has_fields_request_of _ _ _)).
  pose proof (spelling_of_exact _ _ N1) as S1.
  pose proof (spelling_of_exact _ _ N2) as S2.
  destruct (spelling_unit_type _ _ S1) as [T1 _].
  destruct (spelling_unit_type _ _ S2) as [T2 _].
  unfold convert_fields.
  destruct (py_float value) as [v|]; [|split; reflexivity].
  rewrite (unit_type_nonempty _ _ T1), (unit_type_nonempty _ _ T2).
  destruct (nonempty_str (JStr other)) as [o|]; [|split; reflexivity].
  unfold convert_units.
  unfold unit_type_of in T1, T2. unfold spelling_of in S1, S2.
  rewrite T1, T2, S1, S2.
  destruct (get_unit_type (Some (PyStr.strip o))) as [ot|]; [|split; reflexivity].
  split.
  - destruct (negb (type_of_code c == ot)); [reflexivity|].
    destruct (normalize (Some (PyStr.strip o))) as [oc|]; [|reflexivity].
    destruct (((type_of_code c == "length") || (type_of_code c == "weight"))
              && (v <? 0)%float); [reflexivity|].
    now destruct (dispatch (type_of_code c) c oc v).
  - destruct (negb (ot == type_of_code c)); [reflexivity|].
    destruct (normalize (Some (PyStr.strip o))) as [oc|]; [|reflexivity].
    destruct (((ot == "length") || (ot == "weight")) && (v <? 0)%float);
      [reflexivity|].
    now destruct (dispatch ot oc c v).
Qed.

Lemma spelling_congruence_witness :
  summary (convert (request_of (JInt 3) "miles" "km")) =
  summary (convert (request_of (JInt 3) "MI" "km")) /\
  summary (convert (request_of (JInt 3) "km" "miles")) =
  summary (convert (request_of (JInt 3) "km" "MI")).
Proof.
  apply (spelling_congruence (JInt 3) "miles" "MI" "km" "mi"); reflexivity.
Defined.

(* ------------------------------------------------------------------ *)
(** ** Round trips

    The primitive operations are specified by the axioms of the library
    ([mul_spec], [div_spec], ...) as the operations of [SpecFloat]; the
    lemmas below bound the rounding error of these, of [round(x, 6)] and
    of the helpers, for numbers below 2^24. *)

(* ------------------------------------------------------------------ *)
(** ** Powers of two and binary digits *)

Lemma P2_pos (e : Z) : (0 < P2 e)%Q.
Proof. apply Qpower_0_lt. reflexivity. Qed.

Lemma P2_plus (a b : Z) : (P2 (a + b) == P2 a * P2 b)%Q.
Proof. apply Qpower_plus. discriminate. Qed.

Lemma P2_succ (a : Z) : (P2 (a + 1) == 2 * P2 a)%Q.
Proof. rewrite P2_plus. unfold P2 at 2. simpl. ring. Qed.

Lemma P2_le (a b : Z) : a <= b -> (P2 a <= P2 b)%Q.
Proof. intros H. apply Qpower_le_compat_l; [exact H | discriminate]. Qed.

Lemma P2_lt_inv (a b : Z) : (P2 a < P2 b)%Q -> a < b.
Proof.
  intros H. destruct (Z_lt_le_dec a b) as [L|L]; [exact L|].
  apply P2_le in L. lra.
Qed.

Lemma P2_Z (n : Z) : 0 <= n -> (P2 n == inject_Z (2 ^ n))%Q.
Proof. intros H. unfold P2. now rewrite Zpower_Qpower. Qed.

Lemma digits2_size (p : positive) : digits2_pos p = Pos.size p.
Proof. induction p; simpl; congruence. Qed.

Lemma digits2_bounds (p : positive) :
  2 ^ (Zpos (digits2_pos p) - 1) <= Zpos p < 2 ^ Zpos (digits2_pos p).
Proof.
  rewrite digits2_size. split.
  - pose proof (Pos.size_le p) as H.
    assert (E : 2 ^ Zpos (Pos.size p) = 2 * 2 ^ (Zpos (Pos.size p) - 1)).
    { rewrite <- Z.pow_succ_r by lia. f_equal. lia. }
    assert (H' : 2 ^ Zpos (Pos.size p) <= 2 * Zpos p).
    { rewrite <- Pos2Z.inj_pow. change (2 * Zpos p) with (Zpos (p~0)).
      now apply Pos2Z.pos_le_pos. }
    lia.
  - pose proof (Pos.size_gt p) as H.
    rewrite <- Pos2Z.inj_pow. now apply Pos2Z.pos_lt_pos.
Qed.

(** [Zdigits2] is the number of bits: the unique [d] with
    [2^(d-1) <= m < 2^d]. *)
Lemma Zdigits2_unique (m d : Z) :
  0 < d -> 2 ^ (d - 1) <= m < 2 ^ d -> Zdigits2 m = d.
Proof.
  intros Hd [L U]. destruct m as [|p|p]; try (pose proof (Z.pow_pos_nonneg 2 (d - 1)); lia).
  simpl. pose proof (digits2_bounds p) as [L' U'].
  destruct (Z.lt_trichotomy (Zpos (digits2_pos p)) d) as [C|[C|C]]; [|exact C|].
  - assert (2 ^ Zpos (digits2_pos p) <= 2 ^ (d - 1)) by (apply Z.pow_le_mono_r; lia). lia.
  - assert (2 ^ d <= 2 ^ (Zpos (digits2_pos p) - 1)) by (apply Z.pow_le_mono_r; lia). lia.
Qed.

Lemma Zdigits2_nonneg (m : Z) : 0 <= Zdigits2 m.
Proof. destruct m; simpl; lia. Qed.

Lemma Zdigits2_bounds (m : Z) :
  0 < m -> 2 ^ (Zdigits2 m - 1) <= m < 2 ^ Zdigits2 m.
Proof. destruct m as [|p|p]; try lia. intros _. apply digits2_bounds. Qed.

(* ------------------------------------------------------------------ *)
(** ** Right shifts and rounding to nearest even *)

Lemma located_ext (m : Z) (l : location) (y y' : Q) :
  (y == y')%Q -> located m l y -> located m l y'.
Proof.
  intros E. destruct l as [|[| |]]; simpl; rewrite E; tauto.
Qed.

Lemma rep_ext (mrs : shr_record) (y y' : Q) :
  (y == y')%Q -> rep mrs y -> rep mrs y'.
Proof. intros E [H L]. split; [exact H | now apply (located_ext _ _ y)]. Qed.

Lemma inject_xO (p : positive) : inject_Z (Zpos p~0) = (2 * inject_Z (Zpos p))%Q.
Proof. change (Zpos p~0) with (2 * Zpos p). now rewrite inject_Z_mult. Qed.

Lemma inject_xI (p : positive) : inject_Z (Zpos p~1) = (2 * inject_Z (Zpos p) + 1)%Q.
Proof.
  change (Zpos p~1) with (2 * Zpos p + 1).
  now rewrite inject_Z_plus, inject_Z_mult.
Qed.

Lemma shr_1_rep (mrs : shr_record) (y : Q) :
  rep mrs y -> rep (shr_1 mrs) (y * (1 # 2)).
Proof.
  destruct mrs as [m r s]. intros [Hm L]. simpl in Hm.
  destruct m as [|[p|p|]|p]; try lia;
    destruct r, s; unfold rep, located in L |- *; simpl in L |- *;
    rewrite ?inject_xO, ?inject_xI in L;
    change (inject_Z 1) with 1%Q in *; change (inject_Z 0) with 0%Q in *;
    (split; [lia | lra]).
Qed.

Lemma iter_shr_1_rep (p : positive) :
  forall mrs y, rep mrs y -> rep (iter_pos shr_1 p mrs) (y * P2 (- Zpos p)).
Proof.
  induction p as [p IH|p IH|]; intros mrs y H; simpl iter_pos.
  - apply (rep_ext _ (y * (1 # 2) * P2 (- Zpos p) * P2 (- Zpos p))).
    + replace (- Zpos p~1) with (- Zpos p + (- Zpos p + -1)) by lia.
      rewrite !P2_plus. change (P2 (-1)) with (1 # 2)%Q. ring.
    + apply IH, IH, shr_1_rep, H.
  - apply (rep_ext _ (y * P2 (- Zpos p) * P2 (- Zpos p))).
    + replace (- Zpos p~0) with (- Zpos p + - Zpos p) by lia.
      rewrite !P2_plus. ring.
    + apply IH, IH, H.
  - apply shr_1_rep, H.
Qed.

Lemma rep_of_loc (m : Z) (l : location) (y : Q) :
  0 <= m -> located m l y -> rep (shr_record_of_loc m l) y.
Proof.
  intros Hm L. split; destruct l as [|[| |]]; simpl; assumption.
Qed.

(** A right shift by [n] bits keeps the value: the record at exponent
    [e + n] stands for [y / 2^n]. *)
Lemma shr_rep (mrs : shr_record) (e n : Z) (y : Q) :
  0 <= n -> rep mrs y ->
  snd (shr mrs e n) = e + n /\ rep (fst (shr mrs e n)) (y * P2 (- n)).
Proof.
  intros Hn H. destruct n as [|p|p]; try lia; simpl.
  - split; [lia|]. apply (rep_ext _ y); [|exact H].
    change (P2 (-0)) with 1%Q. ring.
  - split; [reflexivity|]. now apply iter_shr_1_rep.
Qed.

Lemma round_nearest_even_close (m : Z) (l : location) (y : Q) :
  0 <= m -> located m l y ->
  let q := round_nearest_even m l in
  (m <= q <= m + 1) /\ (Qabs (inject_Z q - y) <= 1 # 2)%Q.
Proof.
  intros Hm L q. subst q.
  unfold round_nearest_even, located in *.
  destruct l as [|[| |]];
    try destruct (Z.even m);
    rewrite ?inject_Z_plus; (split; [lia|]);
    apply Qabs_Qle_condition; change (inject_Z 1) with 1%Q; lra.
Qed.

Lemma located_bounds (m : Z) (l : location) (y : Q) :
  located m l y -> (inject_Z m <= y /\ y < inject_Z m + 1)%Q.
Proof. destruct l as [|[| |]]; unfold located; lra. Qed.

Lemma inject_Z_lt_inv (a b : Z) : (inject_Z a < inject_Z b)%Q -> a < b.
Proof. now rewrite <- Zlt_Qlt. Qed.

Lemma inject_Z_le_inv (a b : Z) : (inject_Z a <= inject_Z b)%Q -> a <= b.
Proof. now rewrite <- Zle_Qle. Qed.

Lemma fexp_eq (x : Z) : fexp prec emax x = Z.max (x - 53) (-1074).
Proof. reflexivity. Qed.

(** The first shift of [binary_round_aux]: the mantissa is brought to the
    exponent [fexp (digits + e)], and the record stands for the value at
    that exponent. *)
Lemma shr_fexp_spec (m e : Z) (l : location) (y : Q) :
  0 <= m -> located m l y ->
  e <= fexp prec emax (Zdigits2 m + e) ->
  exists mrs,
    shr_fexp prec emax m e l = (mrs, fexp prec emax (Zdigits2 m + e)) /\
    rep mrs (y * P2 (e - fexp prec emax (Zdigits2 m + e))).
Proof.
  intros Hm L He. unfold shr_fexp.
  set (f := fexp prec emax (Zdigits2 m + e)) in *.
  destruct (shr_rep (shr_record_of_loc m l) e (f - e) y) as [E R];
    [lia | now apply rep_of_loc |].
  exists (fst (shr (shr_record_of_loc m l) e (f - e))). split.
  - rewrite (surjective_pairing (shr _ _ _)). f_equal. rewrite E. lia.
  - apply (rep_ext _ (y * P2 (- (f - e)))); [|exact R].
    replace (- (f - e)) with (e - f) by lia. reflexivity.
Qed.

(** The mantissa after the first shift has at most 53 bits; it has 53 bits
    exactly above the subnormal range, and at most 52 within it. *)
Lemma shifted_mantissa_bounds (m e m' : Z) (y : Q) :
  0 <= m -> (inject_Z m <= y /\ y < inject_Z m + 1)%Q ->
  e <= fexp prec emax (Zdigits2 m + e) ->
  0 <= m' ->
  (inject_Z m' <= y * P2 (e - fexp prec emax (Zdigits2 m + e)) /\
   y * P2 (e - fexp prec emax (Zdigits2 m + e)) < inject_Z m' + 1)%Q ->
  m' < 2 ^ 53 /\
  (fexp prec emax (Zdigits2 m + e) = -1074 -> -1074 <> Zdigits2 m + e - 53 ->
   m' < 2 ^ 52) /\
  (fexp prec emax (Zdigits2 m + e) = Zdigits2 m + e - 53 -> 0 < m -> 2 ^ 52 <= m').
Proof.
  intros Hm [Ly Uy] He Hm' [Ly' Uy'].
  rewrite fexp_eq in *.
  set (d := Zdigits2 m) in *.
  set (f := Z.max (d + e - 53) (-1074)) in *.
  pose proof (P2_pos (e - f)) as Pp.
  pose proof (Zdigits2_nonneg m) as Hd. fold d in Hd.
  assert (Up : forall k, d - (f - e) <= k -> 0 <= k -> m' < 2 ^ k).
  { intros k Hk Hk0. apply inject_Z_lt_inv. rewrite <- P2_Z by lia.
    apply (Qle_lt_trans _ _ _ Ly').
    assert (Hy : (y < P2 d)%Q).
    { destruct (Z.eq_dec m 0) as [->|Hne].
      - change (inject_Z 0) with 0%Q in Uy.
        assert (P2 0 <= P2 d)%Q by (apply P2_le; lia).
        change (P2 0) with 1%Q in *. lra.
      - pose proof (Zdigits2_bounds m ltac:(lia)) as [_ U]. fold d in U.
        assert (inject_Z (m + 1) <= inject_Z (2 ^ d))%Q by (rewrite <- Zle_Qle; lia).
        rewrite inject_Z_plus in H. change (inject_Z 1) with 1%Q in H.
        rewrite <- P2_Z in H by lia. lra. }
    assert (Hk' : (P2 d * P2 (e - f) <= P2 k)%Q).
    { rewrite <- P2_plus. apply P2_le. lia. }
    apply (Qlt_le_trans _ (P2 d * P2 (e - f))); [|exact Hk'].
    apply Qmult_lt_compat_r; assumption. }
  split; [|split].
  - apply Up; lia.
  - intros Hf Hne. apply Up; lia.
  - intros Hf Hpos.
    pose proof (Zdigits2_bounds m Hpos) as [Lm _]. fold d in Lm.
    assert (Hd1 : 1 <= d) by (destruct m; simpl in d; subst d; lia).
    apply Z.lt_succ_r. apply inject_Z_lt_inv.
    rewrite <- Z.add_1_r, inject_Z_plus. change (inject_Z 1) with 1%Q.
    apply (Qle_lt_trans _ (y * P2 (e - f))); [|exact Uy'].
    rewrite <- P2_Z by lia.
    replace 52 with ((d - 1) + (e - f)) by lia. rewrite P2_plus.
    apply Qmult_le_compat_r; [|lra].
    rewrite P2_Z by lia. apply (Qle_trans _ (inject_Z m)); [|exact Ly].
    now rewrite <- Zle_Qle.
Qed.

Lemma shr_nonpos (mrs : shr_record) (e n : Z) : n <= 0 -> shr mrs e n = (mrs, e).
Proof. destruct n; try reflexivity. lia. Qed.

Lemma Zdigits2_le (q k : Z) : 0 <= q -> 0 <= k -> q < 2 ^ k -> Zdigits2 q <= k.
Proof.
  intros Hq0 Hk H. destruct (Z_lt_le_dec 0 q) as [Hq|Hq].
  - pose proof (Zdigits2_bounds q Hq) as [L _].
    destruct (Z_lt_le_dec k (Zdigits2 q)) as [C|C]; [|exact C].
    assert (2 ^ k <= 2 ^ (Zdigits2 q - 1)) by (apply Z.pow_le_mono_r; lia). lia.
  - destruct q; simpl; lia.
Qed.

Lemma Zdigits2_ge (q k : Z) : 0 <= k -> 2 ^ k <= q -> k + 1 <= Zdigits2 q.
Proof.
  intros Hk H. assert (Hq : 0 < q) by (pose proof (Z.pow_pos_nonneg 2 k); lia).
  pose proof (Zdigits2_bounds q Hq) as [_ U].
  destruct (Z_lt_le_dec k (Zdigits2 q)) as [C|C]; [lia|].
  assert (2 ^ Zdigits2 q <= 2 ^ k)
    by (apply Z.pow_le_mono_r; [lia | exact C]).
  lia.
Qed.

(** The value of a rounded datum with its sign. *)
Lemma SFval_finite (s : bool) (p : positive) (e : Z) :
  SFval (S754_finite s p e) =
  if s then (- (inject_Z (Zpos p) * P2 e))%Q else (inject_Z (Zpos p) * P2 e)%Q.
Proof. reflexivity. Qed.

(** Rounding to binary64.  A datum [y * 2^e] given by its integer part [m]
    and the location [l] of the rest, with [e] at or below the target
    exponent and no overflow in sight, rounds to a valid zero or finite
    number of the same sign, whose magnitude is within half a unit of the
    target exponent. *)
Lemma binary_round_aux_spec (s : bool) (m e : Z) (l : location) (y : Q) :
  0 <= m -> located m l y ->
  e <= fexp prec emax (Zdigits2 m + e) ->
  Zdigits2 m + e <= 1000 ->
  let f := fexp prec emax (Zdigits2 m + e) in
  let r := binary_round_aux prec emax s m e l in
  SpecFloat.valid_binary prec emax r = true /\
  (r = S754_zero s \/ exists p e', r = S754_finite s p e') /\
  exists v : Q,
    (0 <= v)%Q /\ (SFval r == if s then - v else v)%Q /\
    (Qabs (v - y * P2 e) <= (1 # 2) * P2 f)%Q.
Proof.
  intros Hm L He Hov f r.
  destruct (shr_fexp_spec m e l y Hm L He) as (mrs & E & [Hm' L']).
  fold f in E, L'.
  pose proof (located_bounds _ _ _ L) as B.
  pose proof (located_bounds _ _ _ L') as B'.
  destruct (shifted_mantissa_bounds m e (shr_m mrs) y Hm B He Hm' B')
    as (U53 & U52 & L52).
  fold f in U52, L52.
  destruct (round_nearest_even_close _ _ _ Hm' L') as [Hq Cq].
  set (q := round_nearest_even (shr_m mrs) (loc_of_shr_record mrs)) in *.
  assert (Hf : -1074 <= f <= 947) by (subst f; rewrite fexp_eq; lia).
  assert (Hf' : f = -1074 \/ (f = Zdigits2 m + e - 53 /\ 0 < m)).
  { subst f. rewrite fexp_eq in *.
    destruct (Z.eq_dec m 0) as [->|]; [simpl in *|]; lia. }
  assert (Hval : forall v : Q, (v == inject_Z q * P2 f)%Q ->
                 (Qabs (v - y * P2 e) <= (1 # 2) * P2 f)%Q).
  { intros v ->.
    assert (Ey : (y * P2 e == y * P2 (e - f) * P2 f)%Q).
    { rewrite <- Qmult_assoc, <- P2_plus.
      now replace (e - f + f) with e by lia. }
    rewrite Ey.
    setoid_replace (inject_Z q * P2 f - y * P2 (e - f) * P2 f)%Q
      with ((inject_Z q - y * P2 (e - f)) * P2 f)%Q by ring.
    rewrite Qabs_Qmult, (Qabs_pos (P2 f)) by (apply Qlt_le_weak, P2_pos).
    apply Qmult_le_compat_r; [exact Cq | apply Qlt_le_weak, P2_pos]. }
  assert (Er : r = binary_round_aux prec emax s m e l) by reflexivity.
  clearbody r.
  unfold binary_round_aux in Er. rewrite E in Er. fold q in Er.
  unfold shr_fexp in Er.
  destruct (Z.eq_dec q 0) as [Q0|Q0].
  - (* the datum rounds to zero *)
    rewrite Q0 in Er. rewrite shr_nonpos in Er
      by (change (Zdigits2 0) with 0; rewrite fexp_eq; lia).
    simpl in Er. subst r. split; [reflexivity|]. split; [now left|].
    exists 0%Q. split; [lra|]. split; [simpl; destruct s; lra|].
    apply Hval. rewrite Q0. change (inject_Z 0) with 0%Q. ring.
  - destruct (Z.eq_dec q (2 ^ 53)) as [Q53|Q53].
    + (* the carry case: 2^53 becomes 2^52 one exponent up *)
      rewrite Q53 in Er.
      assert (F1 : fexp prec emax (Zdigits2 (2 ^ 53) + f) - f = 1).
      { change (Zdigits2 (2 ^ 53)) with 54. rewrite fexp_eq.
        destruct Hf' as [Hf'|[Hf' Hpos]]; [|lia].
        destruct (Z.eq_dec (-1074) (Zdigits2 m + e - 53)) as [C|C]; [lia|].
        specialize (U52 Hf' C). lia. }
      rewrite F1 in Er. simpl in Er.
      replace (f + 1 <=? 971) with true in Er by (symmetry; apply Z.leb_le; lia).
      subst r. split.
      { unfold SpecFloat.valid_binary, bounded, canonical_mantissa.
        change (Zpos (digits2_pos 4503599627370496)) with 53.
        rewrite fexp_eq. apply andb_true_intro. split.
        - apply Z.eqb_eq. lia.
        - apply Z.leb_le. change (emax - prec) with 971. lia. }
      split; [right; now eexists; eexists|].
      exists (inject_Z q * P2 f)%Q. split.
      { apply Qmult_le_0_compat; [|apply Qlt_le_weak, P2_pos].
        rewrite Q53. discriminate. }
      split; [|now apply Hval].
      rewrite SFval_finite, Q53.
      change (inject_Z 4503599627370496) with (inject_Z (2 ^ 52)).
      change (inject_Z (2 ^ 53)) with (2 * inject_Z (2 ^ 52))%Q.
      destruct s; rewrite P2_succ; ring.
    + (* the mantissa fits: no second shift *)
      assert (Hq53 : 0 < q < 2 ^ 53) by lia.
      assert (F0 : fexp prec emax (Zdigits2 q + f) = f).
      { rewrite fexp_eq.
        pose proof (Zdigits2_le q 53 ltac:(lia) ltac:(lia) ltac:(lia)) as D1.
        destruct Hf' as [Hf'|[Hf' Hpos]]; [lia|].
        pose proof (Zdigits2_ge q 52 ltac:(lia) ltac:(specialize (L52 Hf' Hpos); lia)).
        lia. }
      rewrite shr_nonpos in Er by lia.
      destruct q as [|p|p] eqn:Eq; try lia. simpl in Er.
      replace (f <=? 971) with true in Er by (symmetry; apply Z.leb_le; lia).
      subst r. split.
      { unfold SpecFloat.valid_binary, bounded, canonical_mantissa.
        change (Zpos (digits2_pos p)) with (Zdigits2 (Zpos p)).
        rewrite F0. apply andb_true_intro. split.
        - apply Z.eqb_refl.
        - apply Z.leb_le. change (emax - prec) with 971. lia. }
      split; [right; now eexists; eexists|].
      exists (inject_Z (Zpos p) * P2 f)%Q. split.
      { apply Qmult_le_0_compat; [|apply Qlt_le_weak, P2_pos].
        rewrite <- (Zle_Qle 0). lia. }
      split; [|now apply Hval].
      rewrite SFval_finite. destruct s; reflexivity.
Qed.

Lemma Qabs_signed (s : bool) (a b : Q) :
  (Qabs (signed s a - signed s b) == Qabs (a - b))%Q.
Proof.
  destruct s; unfold signed; [|reflexivity].
  setoid_replace (- a - - b)%Q with (- (a - b))%Q by ring.
  apply Qabs_opp.
Qed.

(** Rounding a datum of magnitude below 2^24: the error is at most 2^-30. *)
Lemma binary_round_aux_small (s : bool) (m e : Z) (l : location) (y : Q) :
  0 <= m -> located m l y ->
  e <= fexp prec emax (Zdigits2 m + e) ->
  (y * P2 e < P2 24)%Q ->
  let r := binary_round_aux prec emax s m e l in
  SpecFloat.valid_binary prec emax r = true /\
  SFfinite r /\
  (s = false -> (0 <= SFval r)%Q) /\
  (Qabs (SFval r - signed s (y * P2 e)) <= P2 (-30))%Q.
Proof.
  intros Hm L He Hy r.
  assert (Hd : Zdigits2 m + e <= 24).
  { destruct (Z.eq_dec m 0) as [->|Hne].
    - simpl in *. rewrite fexp_eq in He. lia.
    - pose proof (Zdigits2_bounds m ltac:(lia)) as [Lm _].
      pose proof (located_bounds _ _ _ L) as [Ly _].
      assert (Hp : (P2 (Zdigits2 m - 1 + e) < P2 24)%Q).
      { apply (Qle_lt_trans _ (y * P2 e)); [|exact Hy].
        rewrite P2_plus. apply Qmult_le_compat_r; [|apply Qlt_le_weak, P2_pos].
        apply (Qle_trans _ (inject_Z m)); [|exact Ly].
        pose proof (Zdigits2_nonneg m).
        assert (1 <= Zdigits2 m) by (destruct m; simpl in *; lia).
        rewrite P2_Z by lia. now rewrite <- Zle_Qle. }
      apply P2_lt_inv in Hp. lia. }
  destruct (binary_round_aux_spec s m e l y Hm L He ltac:(lia))
    as (V & Sh & v & Hv & Ev & Cv).
  fold r in V, Sh, Ev. split; [exact V|]. split; [|split].
  - destruct Sh as [->|(p & e' & ->)]; exact I.
  - intros ->. rewrite Ev. exact Hv.
  - change (if s then (- v)%Q else v) with (signed s v) in Ev.
    rewrite Ev, Qabs_signed.
    apply (Qle_trans _ _ _ Cv).
    assert (Hf : fexp prec emax (Zdigits2 m + e) <= -29) by (rewrite fexp_eq; lia).
    apply P2_le in Hf.
    replace (-30) with (-29 + -1) by lia. rewrite P2_plus.
    change (P2 (-1)) with (1 # 2)%Q. lra.
Qed.

(** *** Multiplication *)

Lemma SFval_zero (s : bool) : SFval (S754_zero s) = 0%Q.
Proof. reflexivity. Qed.

Lemma SFval_signed (s : bool) (p : positive) (e : Z) :
  SFval (S754_finite s p e) = signed s (inject_Z (Zpos p) * P2 e).
Proof. reflexivity. Qed.

Lemma signed_xorb_mult (s1 s2 : bool) (a b : Q) :
  (signed (xorb s1 s2) (a * b) == signed s1 a * signed s2 b)%Q.
Proof. destruct s1, s2; unfold signed, xorb; ring. Qed.

Lemma pos_value_pos (p : positive) (e : Z) : (0 < inject_Z (Zpos p) * P2 e)%Q.
Proof.
  apply Qmult_lt_0_compat; [|apply P2_pos].
  rewrite <- (Zlt_Qlt 0). lia.
Qed.

Lemma signed_nonneg (s : bool) (x : Q) :
  (0 < x)%Q -> (0 <= signed s x)%Q -> s = false.
Proof. destruct s; unfold signed; [lra | reflexivity]. Qed.

(** The product of a zero or finite [x] by a normal number [y] with
    exponent at most 0, when it is below 2^24 in magnitude. *)
Lemma SFmul_small (x : spec_float) (sy : bool) (my : positive) (ey : Z) :
  SFfinite x ->
  2 ^ 52 <= Zpos my -> ey <= 0 ->
  (Qabs (SFval x * SFval (S754_finite sy my ey)) < P2 24)%Q ->
  let r := SFmul prec emax x (S754_finite sy my ey) in
  SpecFloat.valid_binary prec emax r = true /\
  SFfinite r /\
  (sy = false -> (0 <= SFval x)%Q -> (0 <= SFval r)%Q) /\
  (Qabs (SFval r - SFval x * SFval (S754_finite sy my ey)) <= P2 (-30))%Q.
Proof.
  intros Fx Hmy Hey Hb r.
  destruct x as [sx| | |sx mx ex]; try contradiction; subst r.
  - simpl SFmul. split; [reflexivity|]. split; [exact I|].
    split; [intros; rewrite SFval_zero; lra|].
    rewrite !SFval_zero.
    setoid_replace (0 - 0 * SFval (S754_finite sy my ey))%Q with 0%Q by ring.
    apply Qlt_le_weak, P2_pos.
  - simpl SFmul.
    assert (Ev : (SFval (S754_finite sx mx ex) * SFval (S754_finite sy my ey) ==
                  signed (xorb sx sy)
                    (inject_Z (Zpos (mx * my)) * P2 (ex + ey)))%Q).
    { rewrite !SFval_signed, <- signed_xorb_mult.
      rewrite Pos2Z.inj_mul, inject_Z_mult.
      destruct (xorb sx sy); unfold signed; rewrite P2_plus; ring. }
    rewrite Ev in Hb |- *.
    assert (Hb' : (inject_Z (Zpos (mx * my)) * P2 (ex + ey) < P2 24)%Q).
    { revert Hb. pose proof (pos_value_pos (mx * my) (ex + ey)).
      destruct (xorb sx sy); unfold signed;
        [rewrite Qabs_opp|]; rewrite Qabs_pos; lra. }
    assert (Hd : 53 <= Zdigits2 (Zpos (mx * my))).
    { apply (Zdigits2_ge _ 52); [lia|]. rewrite Pos2Z.inj_mul. nia. }
    destruct (binary_round_aux_small (xorb sx sy) (Zpos (mx * my)) (ex + ey)
                loc_Exact (inject_Z (Zpos (mx * my))))
      as (V & F & S & C);
      [lia | reflexivity | rewrite fexp_eq; lia | exact Hb' |].
    split; [exact V|]. split; [exact F|]. split; [|exact C].
    intros -> Hx. apply S.
    rewrite SFval_signed in Hx.
    rewrite (signed_nonneg sx _ (pos_value_pos mx ex) Hx). reflexivity.
Qed.

(** *** Division *)

Lemma new_location_spec (m2 q r : Z) (y : Q) :
  0 < m2 -> 0 <= r < m2 ->
  (y * inject_Z m2 == inject_Z (q * m2 + r))%Q ->
  located q (new_location m2 r) y.
Proof.
  intros Hm2 Hr Ey.
  assert (HM : (0 < inject_Z m2)%Q) by (rewrite <- (Zlt_Qlt 0); exact Hm2).
  rewrite inject_Z_plus, inject_Z_mult in Ey.
  set (M := inject_Z m2) in *. set (R := inject_Z r) in *.
  assert (Ey' : ((y - inject_Z q) * M == R)%Q).
  { setoid_replace ((y - inject_Z q) * M)%Q with (y * M - inject_Z q * M)%Q by ring.
    rewrite Ey. ring. }
  assert (Cmp : forall c : comparison, (2 * r ?= m2) = c ->
                match c with
                | Lt => (2 * R < M)%Q
                | Eq => (2 * R == M)%Q
                | Gt => (M < 2 * R)%Q
                end).
  { intros c Hc. subst R M. change 2%Q with (inject_Z 2).
    rewrite <- inject_Z_mult.
    destruct c.
    - apply Z.compare_eq in Hc. now rewrite Hc.
    - rewrite <- Zlt_Qlt. now apply Z.compare_lt_iff.
    - rewrite <- Zlt_Qlt. now apply Z.compare_gt_iff. }
  assert (Half : forall z : Q, (z * M == R)%Q ->
                 ((2 * R < M -> z < 1 # 2) /\ (2 * R == M -> z == 1 # 2) /\
                  (M < 2 * R -> (1 # 2) < z) /\ (0 < R -> 0 < z) /\ z < 1)%Q).
  { intros z Ez.
    assert (RM : (R < M)%Q) by (subst R M; rewrite <- Zlt_Qlt; lia).
    repeat split; intros.
    - apply (Qmult_lt_r _ _ M HM). lra.
    - apply (Qmult_inj_r _ _ M); lra.
    - apply (Qmult_lt_r _ _ M HM). lra.
    - apply (Qmult_lt_r _ _ M HM). lra.
    - apply (Qmult_lt_r _ _ M HM). lra. }
  destruct (Half _ Ey') as (HLt & HEq & HGt & HPos & H1).
  assert (R0 : r <> 0 -> (0 < R)%Q).
  { intros Hne. subst R. rewrite <- (Zlt_Qlt 0). lia. }
  unfold new_location, new_location_even, new_location_odd.
  destruct (Z.even m2) eqn:Ev; destruct (Z.eqb_spec r 0) as [->|Hr0].
  - unfold located. change (inject_Z 0) with 0%Q in R. subst R.
    assert ((y - inject_Z q) == 0)%Q by (apply (Qmult_inj_r _ _ M); lra). lra.
  - specialize (R0 Hr0). specialize (HPos R0).
    destruct (2 * r ?= m2) eqn:C; specialize (Cmp _ eq_refl); unfold located.
    + specialize (HEq Cmp). lra.
    + specialize (HLt Cmp). lra.
    + specialize (HGt Cmp). lra.
  - unfold located. change (inject_Z 0) with 0%Q in R. subst R.
    assert ((y - inject_Z q) == 0)%Q by (apply (Qmult_inj_r _ _ M); lra). lra.
  - specialize (R0 Hr0). specialize (HPos R0).
    assert (Odd : 2 * r <> m2).
    { intros E. rewrite <- E, Z.even_mul in Ev. discriminate Ev. }
    destruct (2 * r + 1 ?= m2) eqn:C; unfold located.
    + apply Z.compare_eq in C.
      assert (L : (2 * r ?= m2) = Lt) by (apply Z.compare_lt_iff; lia).
      specialize (HLt (Cmp _ L)). lra.
    + rewrite Z.compare_lt_iff in C.
      assert (L : (2 * r ?= m2) = Lt) by (apply Z.compare_lt_iff; lia).
      specialize (HLt (Cmp _ L)). lra.
    + rewrite Z.compare_gt_iff in C.
      assert (L : (2 * r ?= m2) = Gt) by (apply Z.compare_gt_iff; lia).
      specialize (HGt (Cmp _ L)). lra.
Qed.

(** The integer quotient, its exponent and the location of the rest, as
    [SFdiv_core_binary] gives them for two positive mantissas: they stand
    for the exact quotient, and the exponent is at or below the target. *)
Lemma SFdiv_core_spec (m1 m2 : positive) (e1 e2 : Z) :
  exists q e' l y,
    SFdiv_core_binary prec emax (Zpos m1) e1 (Zpos m2) e2 = (q, e', l) /\
    0 <= q /\ located q l y /\
    (y * P2 e' * (inject_Z (Zpos m2) * P2 e2) == inject_Z (Zpos m1) * P2 e1)%Q /\
    e' <= fexp prec emax (Zdigits2 q + e').
Proof.
  unfold SFdiv_core_binary.
  set (d1 := Zdigits2 (Zpos m1)). set (d2 := Zdigits2 (Zpos m2)).
  set (D := d1 + e1 - (d2 + e2)).
  set (e' := Z.min (fexp prec emax D) (e1 - e2)).
  set (s := e1 - e2 - e').
  assert (Hs : 0 <= s) by (subst s e'; lia).
  set (m' := match s with
             | 0 => Zpos m1
             | Zpos _ => Z.shiftl (Zpos m1) s
             | Zneg _ => 0
             end).
  assert (Em' : m' = Zpos m1 * 2 ^ s).
  { subst m'. destruct s as [|p|p] eqn:Es; try lia.
    rewrite Z.shiftl_mul_pow2 by lia. reflexivity. }
  pose proof (Z_div_mod m' (Zpos m2) ltac:(lia)) as DM.
  destruct (Z.div_eucl m' (Zpos m2)) as [q r]. destruct DM as [Eq Hr].
  assert (Hm' : 0 < m') by (rewrite Em'; pose proof (Z.pow_pos_nonneg 2 s); nia).
  assert (Hq : 0 <= q) by nia.
  exists q, e', (new_location (Zpos m2) r),
    (inject_Z m' / inject_Z (Zpos m2))%Q.
  assert (N2 : ~ (inject_Z (Zpos m2) == 0)%Q).
  { intros H. apply (Qeq_bool_iff) in H. discriminate H. }
  split; [reflexivity|]. split; [exact Hq|]. split; [|split].
  - apply new_location_spec; [lia | lia |].
    rewrite Eq, (Z.mul_comm (Zpos m2) q). field. exact N2.
  - rewrite Em', inject_Z_mult, <- P2_Z by lia.
    assert (E12 : (P2 e1 == P2 s * P2 e' * P2 e2)%Q).
    { rewrite <- !P2_plus. subst s. now replace (e1 - e2 - e' + e' + e2) with e1 by lia. }
    rewrite E12. field. exact N2.
  - rewrite fexp_eq. subst e'. rewrite fexp_eq.
    destruct (Z_le_gt_dec (D - 53) (-1074)) as [C|C]; [lia|].
    assert (Hs53 : 53 - d1 + d2 <= s) by (subst s D; rewrite fexp_eq; lia).
    pose proof (digits2_bounds m1) as [L1 _]. pose proof (digits2_bounds m2) as [_ U2].
    fold (Zdigits2 (Zpos m1)) in L1. fold (Zdigits2 (Zpos m2)) in U2.
    fold d1 in L1. fold d2 in U2.
    assert (Hd1 : 1 <= d1) by (subst d1; simpl; lia).
    assert (Hd2 : 1 <= d2) by (subst d2; simpl; lia).
    set (k := d1 - 1 + s - d2).
    assert (Hk : 52 <= k) by (subst k; lia).
    assert (Hqk : 2 ^ k <= q).
    { assert (E1 : 2 ^ (d1 - 1 + s) = 2 ^ k * 2 ^ d2).
      { rewrite <- Z.pow_add_r by lia. f_equal. subst k. lia. }
      assert (E2 : 2 ^ (d1 - 1 + s) = 2 ^ (d1 - 1) * 2 ^ s)
        by (rewrite <- Z.pow_add_r by lia; reflexivity).
      assert (P : 0 < 2 ^ k) by (apply Z.pow_pos_nonneg; lia).
      assert (Ps : 0 < 2 ^ s) by (apply Z.pow_pos_nonneg; lia).
      assert (Lb : 2 ^ k * Zpos m2 <= m') by nia.
      destruct (Z_lt_le_dec q (2 ^ k)) as [Lt|Ge]; [|exact Ge]. nia. }
    pose proof (Zdigits2_ge q k ltac:(lia) Hqk). subst k D. lia.
Qed.

(** The quotient [t] of a zero or finite [x] by a finite number, when it
    is below 2^24 in magnitude. *)
Lemma SFdiv_small (x : spec_float) (sy : bool) (my : positive) (ey : Z) (t : Q) :
  SFfinite x ->
  (t * SFval (S754_finite sy my ey) == SFval x)%Q ->
  (Qabs t < P2 24)%Q ->
  let r := SFdiv prec emax x (S754_finite sy my ey) in
  SpecFloat.valid_binary prec emax r = true /\
  SFfinite r /\
  (sy = false -> (0 <= SFval x)%Q -> (0 <= SFval r)%Q) /\
  (Qabs (SFval r - t) <= P2 (-30))%Q.
Proof.
  intros Fx Et Hb r.
  pose proof (pos_value_pos my ey) as Pb.
  set (b := (inject_Z (Zpos my) * P2 ey)%Q) in *.
  rewrite SFval_signed in Et. fold b in Et.
  destruct x as [sx| | |sx mx ex]; try contradiction; subst r.
  - simpl SFdiv. split; [reflexivity|]. split; [exact I|].
    split; [intros; rewrite SFval_zero; lra|].
    rewrite SFval_zero in *.
    assert (T0 : (t == 0)%Q).
    { apply (Qmult_inj_r _ _ (signed sy b)).
      - destruct sy; unfold signed; lra.
      - rewrite Et. ring. }
    rewrite T0. setoid_replace (0 - 0)%Q with 0%Q by ring.
    apply Qlt_le_weak, P2_pos.
  - simpl SFdiv.
    destruct (SFdiv_core_spec mx my ex ey) as (q & e' & l & y & E & Hq & L & Ey & He).
    rewrite E.
    pose proof (pos_value_pos mx ex) as Pa.
    set (a := (inject_Z (Zpos mx) * P2 ex)%Q) in *.
    rewrite SFval_signed in Et |- *. fold a in Et, Ey |- *. fold b in Ey.
    set (w := (y * P2 e')%Q) in *.
    assert (Hw : (0 < w)%Q).
    { apply (Qmult_lt_r _ _ b Pb). lra. }
    assert (Etw : (t == signed (xorb sx sy) w)%Q).
    { apply (Qmult_inj_r _ _ (signed sy b)).
      - destruct sy; unfold signed; lra.
      - rewrite Et. destruct sx, sy; unfold signed, xorb; lra. }
    assert (Hb' : (w < P2 24)%Q).
    { revert Hb. rewrite Etw. destruct (xorb sx sy); unfold signed;
        [rewrite Qabs_opp|]; rewrite Qabs_pos; lra. }
    destruct (binary_round_aux_small (xorb sx sy) q e' l y Hq L He Hb')
      as (V & F & S & C).
    split; [exact V|]. split; [exact F|]. split.
    + intros -> Hx. apply S.
      rewrite (signed_nonneg sx _ Pa Hx). reflexivity.
    + fold w in C. rewrite Etw. exact C.
Qed.

(** *** Addition and subtraction *)

Lemma iter_xO_spec (p d : positive) :
  Zpos (Pos.iter xO p d) = Zpos p * 2 ^ Zpos d /\
  Zpos (digits2_pos (Pos.iter xO p d)) = Zpos (digits2_pos p) + Zpos d.
Proof.
  induction d as [|d IH] using Pos.peano_ind.
  - simpl. split; lia.
  - rewrite Pos.iter_succ. destruct IH as [IH1 IH2].
    rewrite Pos2Z.inj_succ, Z.pow_succ_r by lia.
    split; [rewrite Pos2Z.inj_xO; lia|].
    simpl digits2_pos. rewrite Pos2Z.inj_succ. lia.
Qed.

Lemma shl_align_value (m : positive) (e ez : Z) :
  ez <= e ->
  (inject_Z (Zpos (fst (shl_align m e ez))) * P2 ez == inject_Z (Zpos m) * P2 e)%Q.
Proof.
  intros H. unfold shl_align.
  destruct (ez - e) as [|d|d] eqn:E; try lia; simpl fst.
  - now replace ez with e by lia.
  - destruct (iter_xO_spec m d) as [-> _].
    rewrite inject_Z_mult, <- P2_Z by lia.
    rewrite <- Qmult_assoc, <- P2_plus.
    now replace (Zpos d + ez) with e by lia.
Qed.

Lemma signed_ext (s : bool) (x x' : Q) :
  (x == x')%Q -> (signed s x == signed s x')%Q.
Proof. intros E. destruct s; unfold signed; now rewrite E. Qed.

(** [binary_round] first aligns the mantissa on the target exponent. *)
Lemma shl_align_fexp_spec (p : positive) (e : Z) :
  exists mz ez,
    shl_align p e (fexp prec emax (Zpos (digits2_pos p) + e)) = (mz, ez) /\
    (inject_Z (Zpos mz) * P2 ez == inject_Z (Zpos p) * P2 e)%Q /\
    ez <= fexp prec emax (Zdigits2 (Zpos mz) + ez).
Proof.
  unfold shl_align.
  set (f := fexp prec emax (Zpos (digits2_pos p) + e)).
  destruct (f - e) as [|d|d] eqn:E.
  - exists p, e. split; [reflexivity|]. split; [reflexivity|].
    simpl Zdigits2. fold f. lia.
  - exists p, e. split; [reflexivity|]. split; [reflexivity|].
    simpl Zdigits2. fold f. lia.
  - exists (Pos.iter xO p d), f. split; [reflexivity|].
    destruct (iter_xO_spec p d) as [E1 E2]. split.
    + rewrite E1, inject_Z_mult, <- P2_Z by lia.
      rewrite <- Qmult_assoc, <- P2_plus.
      now replace (Zpos d + f) with e by lia.
    + simpl Zdigits2. rewrite E2.
      replace (Zpos (digits2_pos p) + Zpos d + f)
        with (Zpos (digits2_pos p) + e) by lia.
      fold f. lia.
Qed.

(** Rounding the integer [z] at exponent [e], below 2^24 in magnitude. *)
Lemma binary_normalize_small (z e : Z) (szero : bool) :
  (Qabs (inject_Z z * P2 e) < P2 24)%Q ->
  let r := binary_normalize prec emax z e szero in
  SpecFloat.valid_binary prec emax r = true /\
  SFfinite r /\
  (0 <= z -> (0 <= SFval r)%Q) /\
  (Qabs (SFval r - inject_Z z * P2 e) <= P2 (-30))%Q.
Proof.
  intros Hb r. subst r.
  assert (Round : forall (s : bool) (p : positive),
    (inject_Z (Zpos p) * P2 e < P2 24)%Q ->
    let r := binary_round prec emax s p e in
    SpecFloat.valid_binary prec emax r = true /\ SFfinite r /\
    (s = false -> (0 <= SFval r)%Q) /\
    (Qabs (SFval r - signed s (inject_Z (Zpos p) * P2 e)) <= P2 (-30))%Q).
  { intros s p Hp. unfold binary_round.
    destruct (shl_align_fexp_spec p e) as (mz & ez & E & Ev & He).
    rewrite E. rewrite <- Ev in Hp. cbv zeta.
    rewrite <- (signed_ext s _ _ Ev).
    apply (binary_round_aux_small s (Zpos mz) ez loc_Exact (inject_Z (Zpos mz)));
      [lia | reflexivity | exact He | exact Hp]. }
  destruct z as [|p|p]; simpl binary_normalize.
  - split; [reflexivity|]. split; [exact I|]. split; [intros; simpl; lra|].
    rewrite SFval_zero. change (inject_Z 0) with 0%Q.
    setoid_replace (0 - 0 * P2 e)%Q with 0%Q by ring.
    apply Qlt_le_weak, P2_pos.
  - pose proof (pos_value_pos p e).
    rewrite Qabs_pos in Hb by lra.
    destruct (Round false p Hb) as (V & F & S & C).
    split; [exact V|]. split; [exact F|]. split; [intros; now apply S | exact C].
  - pose proof (pos_value_pos p e).
    assert (En : (inject_Z (Zneg p) * P2 e == - (inject_Z (Zpos p) * P2 e))%Q).
    { change (Zneg p) with (- Zpos p). rewrite inject_Z_opp. ring. }
    rewrite En in Hb |- *. rewrite Qabs_opp, Qabs_pos in Hb by lra.
    destruct (Round true p Hb) as (V & F & S & C).
    split; [exact V|]. split; [exact F|]. split; [intros; lia | exact C].
Qed.

Lemma cond_Zopp_value (s : bool) (p : positive) (e : Z) :
  (inject_Z (cond_Zopp s (Zpos p)) * P2 e == signed s (inject_Z (Zpos p) * P2 e))%Q.
Proof.
  destruct s; unfold signed, cond_Zopp; [|reflexivity].
  rewrite inject_Z_opp. ring.
Qed.

(** The sum and the difference of a zero or finite [x] and a finite [y],
    below 2^24 in magnitude. *)
Lemma SFadd_small (x : spec_float) (sy : bool) (my : positive) (ey : Z) :
  SFfinite x ->
  SpecFloat.valid_binary prec emax x = true ->
  SpecFloat.valid_binary prec emax (S754_finite sy my ey) = true ->
  (Qabs (SFval x + SFval (S754_finite sy my ey)) < P2 24)%Q ->
  let r := SFadd prec emax x (S754_finite sy my ey) in
  SpecFloat.valid_binary prec emax r = true /\
  SFfinite r /\
  (Qabs (SFval r - (SFval x + SFval (S754_finite sy my ey))) <= P2 (-30))%Q.
Proof.
  intros Fx Vx Vy Hb r.
  destruct x as [sx| | |sx mx ex]; try contradiction; subst r.
  - simpl SFadd. split; [exact Vy|]. split; [exact I|].
    rewrite SFval_zero.
    setoid_replace (SFval (S754_finite sy my ey) - (0 + SFval (S754_finite sy my ey)))%Q
      with 0%Q by ring.
    apply Qlt_le_weak, P2_pos.
  - simpl SFadd.
    set (ez := Z.min ex ey).
    set (z := cond_Zopp sx (Zpos (fst (shl_align mx ex ez))) +
              cond_Zopp sy (Zpos (fst (shl_align my ey ez)))).
    assert (Ez : (inject_Z z * P2 ez ==
                  SFval (S754_finite sx mx ex) + SFval (S754_finite sy my ey))%Q).
    { subst z. rewrite inject_Z_plus, Qmult_plus_distr_l, !cond_Zopp_value.
      rewrite !SFval_signed.
      destruct sx, sy; unfold signed;
        rewrite (shl_align_value mx ex ez), (shl_align_value my ey ez)
          by (subst ez; lia); reflexivity. }
    rewrite <- Ez in Hb |- *.
    destruct (binary_normalize_small z ez false Hb) as (V & F & _ & C).
    now repeat split.
Qed.

Lemma SFsub_small (x : spec_float) (sy : bool) (my : positive) (ey : Z) :
  SFfinite x ->
  SpecFloat.valid_binary prec emax x = true ->
  SpecFloat.valid_binary prec emax (S754_finite sy my ey) = true ->
  (Qabs (SFval x - SFval (S754_finite sy my ey)) < P2 24)%Q ->
  let r := SFsub prec emax x (S754_finite sy my ey) in
  SpecFloat.valid_binary prec emax r = true /\
  SFfinite r /\
  (Qabs (SFval r - (SFval x - SFval (S754_finite sy my ey))) <= P2 (-30))%Q.
Proof.
  intros Fx Vx Vy Hb r.
  destruct x as [sx| | |sx mx ex]; try contradiction; subst r.
  - simpl SFsub. split; [exact Vy|]. split; [exact I|].
    rewrite SFval_zero, !SFval_signed.
    setoid_replace (signed (negb sy) (inject_Z (Zpos my) * P2 ey) -
                    (0 - signed sy (inject_Z (Zpos my) * P2 ey)))%Q
      with 0%Q by (destruct sy; unfold signed, negb; ring).
    apply Qlt_le_weak, P2_pos.
  - simpl SFsub.
    set (ez := Z.min ex ey).
    set (z := cond_Zopp sx (Zpos (fst (shl_align mx ex ez))) -
              cond_Zopp sy (Zpos (fst (shl_align my ey ez)))).
    assert (Ez : (inject_Z z * P2 ez ==
                  SFval (S754_finite sx mx ex) - SFval (S754_finite sy my ey))%Q).
    { subst z. unfold Z.sub.
      rewrite inject_Z_plus, inject_Z_opp, Qmult_plus_distr_l.
      setoid_replace (- inject_Z (cond_Zopp sy (Zpos (fst (shl_align my ey ez)))) * P2 ez)%Q
        with (- (inject_Z (cond_Zopp sy (Zpos (fst (shl_align my ey ez)))) * P2 ez))%Q
        by ring.
      rewrite !cond_Zopp_value, !SFval_signed.
      destruct sx, sy; unfold signed;
        rewrite (shl_align_value mx ex ez), (shl_align_value my ey ez)
          by (subst ez; lia); ring. }
    rewrite <- Ez in Hb |- *.
    destruct (binary_normalize_small z ez false Hb) as (V & F & _ & C).
    now repeat split.
Qed.

(* ------------------------------------------------------------------ *)
(** ** The primitive operations on numbers below 2^24 *)

Lemma float_to_Q_value (x : float) (q : Q) :
  float_to_Q x = Some q ->
  SFfinite (Prim2SF x) /\ (q == SFval (Prim2SF x))%Q.
Proof.
  unfold float_to_Q. destruct (Prim2SF x) as [s| | |s m e]; try discriminate.
  - intros [= <-]. split; [exact I | reflexivity].
  - intros [= <-]. split; [exact I|]. rewrite SFval_signed.
    apply (signed_ext s). destruct (Z.leb_spec 0 e) as [H|H].
    + change (inject_Z (Zpos m * 2 ^ e) == inject_Z (Zpos m) * P2 e)%Q.
      rewrite inject_Z_mult, <- P2_Z by exact H. reflexivity.
    + rewrite Qmake_Qdiv, Z2Pos.id by (apply Z.pow_pos_nonneg; lia).
      rewrite <- P2_Z by lia. unfold Qdiv, P2. rewrite <- Qpower_opp.
      now replace (- - e) with e by lia.
Qed.

Lemma float_to_Q_finite (x : float) :
  SFfinite (Prim2SF x) ->
  exists q, float_to_Q x = Some q /\ (q == SFval (Prim2SF x))%Q.
Proof.
  intros F. unfold float_to_Q in *.
  destruct (float_to_Q x) as [q|] eqn:E.
  - exists q. split; [|now apply float_to_Q_value].
    unfold float_to_Q in E. exact E.
  - unfold float_to_Q in E.
    destruct (Prim2SF x); try contradiction; discriminate E.
Qed.

(** A number that is not below zero does not compare below zero. *)
Lemma ltb_zero_false (x : float) (q : Q) :
  float_to_Q x = Some q -> (0 <= q)%Q -> (x <? 0)%float = false.
Proof.
  intros E Hq. destruct (float_to_Q_value x q E) as [F Ev].
  rewrite ltb_spec. change (Prim2SF 0) with (S754_zero false).
  destruct (Prim2SF x) as [s| | |s m e]; try contradiction; [reflexivity|].
  rewrite SFval_signed in Ev. rewrite Ev in Hq.
  rewrite (signed_nonneg s _ (pos_value_pos m e) Hq). reflexivity.
Qed.

(** What an operation yields on numbers below 2^24: a finite number [q]
    within 2^-30 of the exact result [t]. *)
Lemma result_of_small (r : spec_float) (x : float) (t : Q) :
  Prim2SF x = r ->
  SFfinite r ->
  (Qabs (SFval r - t) <= P2 (-30))%Q ->
  exists q, float_to_Q x = Some q /\ (q == SFval r)%Q /\
            (Qabs (q - t) <= P2 (-30))%Q.
Proof.
  intros E F C. rewrite <- E in F.
  destruct (float_to_Q_finite x F) as (q & Eq & Ev).
  rewrite E in Ev. exists q. split; [exact Eq|]. split; [exact Ev|].
  now rewrite Ev.
Qed.

Lemma mul_small (x c : float) (qx : Q) (sc : bool) (mc : positive) (ec : Z) :
  Prim2SF c = S754_finite sc mc ec ->
  2 ^ 52 <= Zpos mc -> ec <= 0 ->
  float_to_Q x = Some qx ->
  (Qabs (qx * SFval (S754_finite sc mc ec)) < P2 24)%Q ->
  exists q, float_to_Q (x * c) = Some q /\
            (Qabs (q - qx * SFval (S754_finite sc mc ec)) <= P2 (-30))%Q /\
            (sc = false -> 0 <= qx -> 0 <= q)%Q.
Proof.
  intros Ec Hm He Ex Hb.
  destruct (float_to_Q_value x qx Ex) as [F Ev].
  rewrite Ev in Hb.
  destruct (SFmul_small (Prim2SF x) sc mc ec F Hm He Hb) as (_ & Fr & S & C).
  destruct (result_of_small _ (x * c) _
              ltac:(rewrite mul_spec, Ec; reflexivity) Fr C) as (q & Eq & Eqv & Cq).
  exists q. split; [exact Eq|]. split.
  - now rewrite Ev.
  - intros Hs Hx. rewrite Eqv. apply S; [exact Hs | now rewrite <- Ev].
Qed.

Lemma div_small (x c : float) (qx t : Q) (sc : bool) (mc : positive) (ec : Z) :
  Prim2SF c = S754_finite sc mc ec ->
  float_to_Q x = Some qx ->
  (t * SFval (S754_finite sc mc ec) == qx)%Q ->
  (Qabs t < P2 24)%Q ->
  exists q, float_to_Q (x / c) = Some q /\
            (Qabs (q - t) <= P2 (-30))%Q /\
            (sc = false -> 0 <= qx -> 0 <= q)%Q.
Proof.
  intros Ec Ex Et Hb.
  destruct (float_to_Q_value x qx Ex) as [F Ev].
  rewrite Ev in Et.
  destruct (SFdiv_small (Prim2SF x) sc mc ec t F Et Hb) as (_ & Fr & S & C).
  destruct (result_of_small _ (x / c) _
              ltac:(rewrite div_spec, Ec; reflexivity) Fr C) as (q & Eq & Eqv & Cq).
  exists q. split; [exact Eq|]. split; [exact Cq|].
  intros Hs Hx. rewrite Eqv. apply S; [exact Hs | now rewrite <- Ev].
Qed.

Lemma add_small (x c : float) (qx : Q) (sc : bool) (mc : positive) (ec : Z) :
  Prim2SF c = S754_finite sc mc ec ->
  float_to_Q x = Some qx ->
  (Qabs (qx + SFval (S754_finite sc mc ec)) < P2 24)%Q ->
  exists q, float_to_Q (x + c) = Some q /\
            (Qabs (q - (qx + SFval (S754_finite sc mc ec))) <= P2 (-30))%Q.
Proof.
  intros Ec Ex Hb.
  destruct (float_to_Q_value x qx Ex) as [F Ev].
  rewrite Ev in Hb.
  pose proof (Prim2SF_valid c) as Vc. rewrite Ec in Vc.
  destruct (SFadd_small (Prim2SF x) sc mc ec F (Prim2SF_valid x) Vc Hb)
    as (_ & Fr & C).
  destruct (result_of_small _ (x + c) _
              ltac:(rewrite add_spec, Ec; reflexivity) Fr C) as (q & Eq & _ & Cq).
  exists q. split; [exact Eq|]. now rewrite Ev.
Qed.

Lemma sub_small (x c : float) (qx : Q) (sc : bool) (mc : positive) (ec : Z) :
  Prim2SF c = S754_finite sc mc ec ->
  float_to_Q x = Some qx ->
  (Qabs (qx - SFval (S754_finite sc mc ec)) < P2 24)%Q ->
  exists q, float_to_Q (x - c) = Some q /\
            (Qabs (q - (qx - SFval (S754_finite sc mc ec))) <= P2 (-30))%Q.
Proof.
  intros Ec Ex Hb.
  destruct (float_to_Q_value x qx Ex) as [F Ev].
  rewrite Ev in Hb.
  pose proof (Prim2SF_valid c) as Vc. rewrite Ec in Vc.
  destruct (SFsub_small (Prim2SF x) sc mc ec F (Prim2SF_valid x) Vc Hb)
    as (_ & Fr & C).
  destruct (result_of_small _ (x - c) _
              ltac:(rewrite sub_spec, Ec; reflexivity) Fr C) as (q & Eq & _ & Cq).
  exists q. split; [exact Eq|]. now rewrite Ev.
Qed.

(* ------------------------------------------------------------------ *)
(** ** Rounding to 6 decimal places *)

Lemma rne_div_close (a b : Z) :
  0 <= a -> 0 < b ->
  0 <= PyFloat.rne_div a b /\
  2 * Z.abs (PyFloat.rne_div a b * b - a) <= b.
Proof.
  intros Ha Hb. unfold PyFloat.rne_div.
  pose proof (Z.div_mod a b ltac:(lia)) as E.
  pose proof (Z.mod_pos_bound a b Hb) as R.
  pose proof (Z.div_pos a b Ha Hb) as Q.
  set (q := a / b) in *. set (r := a mod b) in *.
  destruct (2 * r ?= b) eqn:C.
  - apply Z.compare_eq in C. destruct (Z.even q); split; nia.
  - rewrite Z.compare_lt_iff in C. split; nia.
  - rewrite Z.compare_gt_iff in C. split; nia.
Qed.

Lemma P2_24 : (P2 24 == 16777216)%Q.
Proof. reflexivity. Qed.

Lemma P2_23 : (P2 23 == 8388608)%Q.
Proof. reflexivity. Qed.

Lemma P2_m30 : (P2 (-30) == 1 # 1073741824)%Q.
Proof. reflexivity. Qed.

(** The integer number of millionths nearest to [m * 2^e]. *)
Lemma scaled6_close (m : positive) (e : Z) :
  0 <= PyFloat.scaled6 m e /\
  (Qabs (inject_Z (PyFloat.scaled6 m e) - inject_Z (Zpos m) * P2 e * 1000000)
   <= 1 # 2)%Q.
Proof.
  unfold PyFloat.scaled6. destruct (Z.leb_spec 0 e) as [H|H].
  - split; [pose proof (Z.pow_pos_nonneg 2 e); nia|].
    rewrite !inject_Z_mult, <- P2_Z by exact H.
    setoid_replace (inject_Z (Zpos m) * inject_Z 1000000 * P2 e -
                    inject_Z (Zpos m) * P2 e * 1000000)%Q with 0%Q
      by (change (inject_Z 1000000) with 1000000%Q; ring).
    discriminate.
  - set (B := 2 ^ (- e)). assert (HB : 0 < B) by (apply Z.pow_pos_nonneg; lia).
    destruct (rne_div_close (Zpos m * 1000000) B ltac:(lia) HB) as [Hn Hc].
    split; [exact Hn|].
    set (n := PyFloat.rne_div (Zpos m * 1000000) B) in *.
    assert (EB : (P2 e * inject_Z B == 1)%Q).
    { subst B. rewrite <- P2_Z by lia. rewrite <- P2_plus.
      now replace (e + - e) with 0 by lia. }
    assert (PB : (0 < inject_Z B)%Q) by (rewrite <- (Zlt_Qlt 0); exact HB).
    assert (Hc' : (Qabs (inject_Z (n * B - Zpos m * 1000000)) <= (1 # 2) * inject_Z B)%Q).
    { rewrite Qabs_Qle_condition.
      assert (- B <= 2 * (n * B - Zpos m * 1000000) <= B) by lia.
      destruct H0 as [L U]. rewrite Zle_Qle in L, U.
      rewrite !inject_Z_mult in *. rewrite inject_Z_opp in L.
      change (inject_Z 2) with 2%Q in *. lra. }
    unfold Z.sub in Hc'.
    rewrite inject_Z_plus, inject_Z_opp, !inject_Z_mult in Hc'.
    change (inject_Z 1000000) with 1000000%Q in Hc'.
    apply Qabs_Qle_condition in Hc'. apply Qabs_Qle_condition.
    pose proof (P2_pos e) as Pe.
    set (X := inject_Z n) in *. set (A := inject_Z (Zpos m)) in *.
    set (b := inject_Z B) in *. set (p := P2 e) in *.
    assert (E1 : (X - A * p * 1000000 == (X * b + - (A * 1000000)) * p)%Q).
    { setoid_replace ((X * b + - (A * 1000000)) * p)%Q
        with (X * (p * b) - A * p * 1000000)%Q by ring.
      rewrite EB. ring. }
    rewrite E1.
    assert (E2 : ((1 # 2) == (1 # 2) * b * p)%Q).
    { setoid_replace ((1 # 2) * b * p)%Q with ((1 # 2) * (p * b))%Q by ring.
      rewrite EB. ring. }
    assert (E3 : ((- ((1 # 2) * b)) * p == - (1 # 2))%Q).
    { setoid_replace ((- ((1 # 2) * b)) * p)%Q with (- ((1 # 2) * b * p))%Q by ring.
      now rewrite <- E2. }
    split.
    + rewrite <- E3. apply Qmult_le_compat_r; lra.
    + apply (Qle_trans _ ((1 # 2) * b * p)).
      * apply Qmult_le_compat_r; lra.
      * rewrite <- E2. apply Qle_refl.
Qed.

Lemma float_to_Q_SF2Prim (r : spec_float) :
  SpecFloat.valid_binary prec emax r = true -> SFfinite r ->
  exists q, float_to_Q (SF2Prim r) = Some q /\ (q == SFval r)%Q.
Proof.
  intros V F. pose proof (Prim2SF_SF2Prim r V) as E.
  destruct (float_to_Q_finite (SF2Prim r)) as (q & Eq & Ev).
  - now rewrite E.
  - exists q. split; [exact Eq|]. now rewrite <- E.
Qed.

(** [round(x, 6)] of a number below 2^23 in magnitude is finite, within
    half a millionth (and 2^-30) of the number, and of its sign. *)
Lemma round6_small (x : float) (qx : Q) :
  float_to_Q x = Some qx ->
  (Qabs qx < P2 23)%Q ->
  exists q, float_to_Q (PyFloat.round6 x) = Some q /\
            (Qabs (q - qx) <= (1 # 2000000) + P2 (-30))%Q /\
            (0 <= qx -> 0 <= q)%Q.
Proof.
  intros Ex Hb. destruct (float_to_Q_value x qx Ex) as [F Ev].
  unfold PyFloat.round6.
  destruct (Prim2SF x) as [s| | |s m e] eqn:Ep; try contradiction.
  - exists qx. split; [exact Ex|]. split; [|tauto].
    setoid_replace (qx - qx)%Q with 0%Q by ring.
    rewrite P2_m30. discriminate.
  - rewrite SFval_signed in Ev.
    pose proof (pos_value_pos m e) as Pa.
    set (a := (inject_Z (Zpos m) * P2 e)%Q) in *.
    assert (Ha : (a < P2 23)%Q).
    { revert Hb. rewrite Ev. destruct s; unfold signed;
        [rewrite Qabs_opp|]; rewrite Qabs_pos; lra. }
    destruct (scaled6_close m e) as [Hn Cn]. fold a in Cn.
    apply Qabs_Qle_condition in Cn.
    rewrite P2_23 in Ha.
    destruct (PyFloat.scaled6 m e) as [|p|p] eqn:En; try lia.
    + (* the number rounds to zero *)
      unfold PyFloat.of_decimal.
      destruct (float_to_Q_SF2Prim (S754_zero s) eq_refl I) as (q & Eq & Eqv).
      exists q. split; [exact Eq|]. rewrite SFval_zero in Eqv.
      change (inject_Z 0) with 0%Q in Cn.
      split; [|intros; lra].
      rewrite Eqv, Ev, P2_m30. apply Qabs_Qle_condition.
      destruct s; unfold signed; lra.
    + unfold PyFloat.of_decimal.
      change (0 <=? -6) with false. cbv iota.
      change (Z.to_pos (10 ^ (- -6))) with 1000000%positive.
      set (t := signed s (inject_Z (Zpos p) * (1 # 1000000))%Q).
      assert (Et : (t * SFval (S754_finite false 1000000 0) ==
                    SFval (S754_finite s p 0))%Q).
      { rewrite !SFval_signed. change (P2 0) with 1%Q.
        change (inject_Z (Zpos 1000000)) with 1000000%Q.
        subst t. destruct s; unfold signed; field. }
      assert (Ht : (Qabs t < P2 24)%Q).
      { rewrite P2_24. subst t. apply Qabs_Qlt_condition.
        assert (0 < inject_Z (Zpos p))%Q by (rewrite <- (Zlt_Qlt 0); lia).
        destruct s; unfold signed; lra. }
      destruct (SFdiv_small (S754_finite s p 0) false 1000000 0 t I Et Ht)
        as (V & Fr & S & C).
      destruct (float_to_Q_SF2Prim _ V Fr) as (q & Eq & Eqv).
      exists q. split; [exact Eq|]. split.
      * rewrite Eqv. rewrite P2_m30 in *.
        apply Qabs_Qle_condition in C. apply Qabs_Qle_condition.
        rewrite Ev. subst t. destruct s; unfold signed in *; lra.
      * intros Hq. rewrite Eqv. apply S; [reflexivity|].
        rewrite Ev in Hq. rewrite (signed_nonneg s _ Pa Hq).
        rewrite SFval_signed. unfold signed.
        apply Qlt_le_weak, pos_value_pos.
Qed.

(* ------------------------------------------------------------------ *)
(** ** The conversion helpers and their round trips *)

Lemma Qabs_le_iff (x y : Q) : (Qabs x <= y <-> - y <= x /\ x <= y)%Q.
Proof. apply Qabs_Qle_condition. Qed.

Lemma Qabs_lt_iff (x y : Q) : (Qabs x < y <-> - y < x /\ x < y)%Q.
Proof. apply Qabs_Qlt_condition. Qed.

(** [x * c] for a normal constant [c] of value [C] and exponent at most 0. *)
Lemma mul_const_small (x c : float) (qx C : Q) (sc : bool) (mc : positive) (ec : Z) :
  Prim2SF c = S754_finite sc mc ec ->
  (SFval (S754_finite sc mc ec) == C)%Q ->
  2 ^ 52 <= Zpos mc -> ec <= 0 ->
  float_to_Q x = Some qx ->
  (- (16777216) < qx * C /\ qx * C < 16777216)%Q ->
  exists q, float_to_Q (x * c) = Some q /\
            (qx * C - (1 # 1073741824) <= q /\ q <= qx * C + (1 # 1073741824))%Q /\
            (sc = false -> 0 <= qx -> 0 <= q)%Q.
Proof.
  intros Ec EC Hm He Ex Hb.
  destruct (mul_small x c qx sc mc ec Ec Hm He Ex) as (q & Eq & Cq & S).
  - rewrite EC, P2_24. now apply Qabs_lt_iff.
  - exists q. split; [exact Eq|]. split; [|exact S].
    rewrite EC, P2_m30 in Cq. apply Qabs_le_iff in Cq. lra.
Qed.

(** [x / c] for a constant [c] of value [C]: the exact quotient is the [t]
    with [t * C = x]. *)
Lemma div_const_small (x c : float) (qx t C : Q) (sc : bool) (mc : positive) (ec : Z) :
  Prim2SF c = S754_finite sc mc ec ->
  (SFval (S754_finite sc mc ec) == C)%Q ->
  float_to_Q x = Some qx ->
  (t * C == qx)%Q ->
  (- (16777216) < t /\ t < 16777216)%Q ->
  exists q, float_to_Q (x / c) = Some q /\
            (t - (1 # 1073741824) <= q /\ q <= t + (1 # 1073741824))%Q /\
            (sc = false -> 0 <= qx -> 0 <= q)%Q.
Proof.
  intros Ec EC Ex Et Hb.
  destruct (div_small x c qx t sc mc ec Ec Ex) as (q & Eq & Cq & S).
  - now rewrite EC.
  - rewrite P2_24. now apply Qabs_lt_iff.
  - exists q. split; [exact Eq|]. split; [|exact S].
    rewrite P2_m30 in Cq. apply Qabs_le_iff in Cq. lra.
Qed.

Lemma add_const_small (x c : float) (qx C : Q) (sc : bool) (mc : positive) (ec : Z) :
  Prim2SF c = S754_finite sc mc ec ->
  (SFval (S754_finite sc mc ec) == C)%Q ->
  float_to_Q x = Some qx ->
  (- (16777216) < qx + C /\ qx + C < 16777216)%Q ->
  exists q, float_to_Q (x + c) = Some q /\
            (qx + C - (1 # 1073741824) <= q /\ q <= qx + C + (1 # 1073741824))%Q.
Proof.
  intros Ec EC Ex Hb.
  destruct (add_small x c qx sc mc ec Ec Ex) as (q & Eq & Cq).
  - rewrite EC, P2_24. now apply Qabs_lt_iff.
  - exists q. split; [exact Eq|].
    rewrite EC, P2_m30 in Cq. apply Qabs_le_iff in Cq. lra.
Qed.

Lemma sub_const_small (x c : float) (qx C : Q) (sc : bool) (mc : positive) (ec : Z) :
  Prim2SF c = S754_finite sc mc ec ->
  (SFval (S754_finite sc mc ec) == C)%Q ->
  float_to_Q x = Some qx ->
  (- (16777216) < qx - C /\ qx - C < 16777216)%Q ->
  exists q, float_to_Q (x - c) = Some q /\
            (qx - C - (1 # 1073741824) <= q /\ q <= qx - C + (1 # 1073741824))%Q.
Proof.
  intros Ec EC Ex Hb.
  destruct (sub_small x c qx sc mc ec Ec Ex) as (q & Eq & Cq).
  - rewrite EC, P2_24. now apply Qabs_lt_iff.
  - exists q. split; [exact Eq|].
    rewrite EC, P2_m30 in Cq. apply Qabs_le_iff in Cq. lra.
Qed.

Lemma round6_close (x : float) (qx : Q) :
  float_to_Q x = Some qx ->
  (- (8388608) < qx /\ qx < 8388608)%Q ->
  exists q, float_to_Q (PyFloat.round6 x) = Some q /\
            (qx - (1 # 2000000) - (1 # 1073741824) <= q /\
             q <= qx + (1 # 2000000) + (1 # 1073741824))%Q /\
            (0 <= qx -> 0 <= q)%Q.
Proof.
  intros Ex Hb.
  destruct (round6_small x qx Ex) as (q & Eq & Cq & S).
  - rewrite P2_23. now apply Qabs_lt_iff.
  - exists q. split; [exact Eq|]. split; [|exact S].
    rewrite P2_m30 in Cq. apply Qabs_le_iff in Cq. lra.
Qed.

(** The two length helpers (the constant is the binary64 nearest to
    1.609344) and the two weight helpers (nearest to 0.45359237). *)
Lemma miles_to_km_small (x : float) (qx : Q) :
  float_to_Q x = Some qx -> (0 <= qx /\ qx <= 3000000)%Q ->
  exists q, float_to_Q (miles_to_km x) = Some q /\
    (qx * (7247841038710944 # 4503599627370496) - (1 # 1073741824) <= q /\
     q <= qx * (7247841038710944 # 4503599627370496) + (1 # 1073741824))%Q /\
    (0 <= q)%Q.
Proof.
  intros Ex Hb. unfold miles_to_km.
  destruct (mul_const_small x 1.609344 qx (7247841038710944 # 4503599627370496)
              false 7247841038710944 (-52) eq_refl)
    as (q & Eq & Cq & S); [reflexivity | lia | lia | exact Ex | lra |].
  exists q. split; [exact Eq|]. split; [exact Cq|]. apply S; [reflexivity | lra].
Qed.

Lemma km_to_miles_small (x : float) (qx : Q) :
  float_to_Q x = Some qx -> (0 <= qx /\ qx <= 3000000)%Q ->
  exists q t, float_to_Q (km_to_miles x) = Some q /\
    (t * (7247841038710944 # 4503599627370496) == qx)%Q /\
    (t - (1 # 1073741824) <= q /\ q <= t + (1 # 1073741824))%Q /\
    (0 <= q)%Q.
Proof.
  intros Ex Hb. unfold km_to_miles.
  set (t := (qx / (7247841038710944 # 4503599627370496))%Q).
  assert (Et : (t * (7247841038710944 # 4503599627370496) == qx)%Q)
    by (subst t; field).
  destruct (div_const_small x 1.609344 qx t (7247841038710944 # 4503599627370496)
              false 7247841038710944 (-52) eq_refl)
    as (q & Eq & Cq & S); [reflexivity | exact Ex | exact Et | lra |].
  exists q, t. split; [exact Eq|]. split; [exact Et|]. split; [exact Cq|].
  apply S; [reflexivity | lra].
Qed.

Lemma lb_to_kg_small (x : float) (qx : Q) :
  float_to_Q x = Some qx -> (0 <= qx /\ qx <= 3000000)%Q ->
  exists q, float_to_Q (lb_to_kg x) = Some q /\
    (qx * (8171193714040401 # 18014398509481984) - (1 # 1073741824) <= q /\
     q <= qx * (8171193714040401 # 18014398509481984) + (1 # 1073741824))%Q /\
    (0 <= q)%Q.
Proof.
  intros Ex Hb. unfold lb_to_kg.
  destruct (mul_const_small x 0.45359237 qx (8171193714040401 # 18014398509481984)
              false 8171193714040401 (-54) eq_refl)
    as (q & Eq & Cq & S); [reflexivity | lia | lia | exact Ex | lra |].
  exists q. split; [exact Eq|]. split; [exact Cq|]. apply S; [reflexivity | lra].
Qed.

Lemma kg_to_lb_small (x : float) (qx : Q) :
  float_to_Q x = Some qx -> (0 <= qx /\ qx <= 3000000)%Q ->
  exists q t, float_to_Q (kg_to_lb x) = Some q /\
    (t * (8171193714040401 # 18014398509481984) == qx)%Q /\
    (t - (1 # 1073741824) <= q /\ q <= t + (1 # 1073741824))%Q /\
    (0 <= q)%Q.
Proof.
  intros Ex Hb. unfold kg_to_lb.
  set (t := (qx / (8171193714040401 # 18014398509481984))%Q).
  assert (Et : (t * (8171193714040401 # 18014398509481984) == qx)%Q)
    by (subst t; field).
  destruct (div_const_small x 0.45359237 qx t (8171193714040401 # 18014398509481984)
              false 8171193714040401 (-54) eq_refl)
    as (q & Eq & Cq & S); [reflexivity | exact Ex | exact Et | lra |].
  exists q, t. split; [exact Eq|]. split; [exact Et|]. split; [exact Cq|].
  apply S; [reflexivity | lra].
Qed.

(** The two temperature helpers. *)
Lemma c_to_f_small (x : float) (qx : Q) :
  float_to_Q x = Some qx -> (- (1500000) <= qx /\ qx <= 1500000)%Q ->
  exists q, float_to_Q (c_to_f x) = Some q /\
    (qx * (9 # 5) + 32 - (3 # 1073741824) <= q /\
     q <= qx * (9 # 5) + 32 + (3 # 1073741824))%Q.
Proof.
  intros Ex Hb. unfold c_to_f.
  destruct (mul_const_small x 9 qx 9 false 5066549580791808 (-49) eq_refl)
    as (q1 & E1 & C1 & _); [reflexivity | lia | lia | exact Ex | lra |].
  set (t := (q1 / 5)%Q).
  assert (Et : (t * 5 == q1)%Q) by (subst t; field).
  destruct (div_const_small (x * 9) 5 q1 t 5 false 5629499534213120 (-50) eq_refl)
    as (q2 & E2 & C2 & _); [reflexivity | exact E1 | exact Et | lra |].
  destruct (add_const_small (x * 9 / 5) 32 q2 32 false 4503599627370496 (-47) eq_refl)
    as (q3 & E3 & C3); [reflexivity | exact E2 | lra |].
  exists q3. split; [exact E3 | lra].
Qed.

Lemma f_to_c_small (x : float) (qx : Q) :
  float_to_Q x = Some qx -> (- (2000000) <= qx /\ qx <= 2000000)%Q ->
  exists q, float_to_Q (f_to_c x) = Some q /\
    ((qx - 32) * (5 # 9) - (2 # 1073741824) <= q /\
     q <= (qx - 32) * (5 # 9) + (2 # 1073741824))%Q.
Proof.
  intros Ex Hb. unfold f_to_c.
  destruct (sub_const_small x 32 qx 32 false 4503599627370496 (-47) eq_refl)
    as (q1 & E1 & C1); [reflexivity | exact Ex | lra |].
  destruct (mul_const_small (x - 32) 5 q1 5 false 5629499534213120 (-50) eq_refl)
    as (q2 & E2 & C2 & _); [reflexivity | lia | lia | exact E1 | lra |].
  set (t := (q2 / 9)%Q).
  assert (Et : (t * 9 == q2)%Q) by (subst t; field).
  destruct (div_const_small ((x - 32) * 5) 9 q2 t 9 false 5066549580791808 (-49) eq_refl)
    as (q3 & E3 & C3 & _); [reflexivity | exact E2 | exact Et | lra |].
  exists q3. split; [exact E3 | lra].
Qed.

(** *** Round trips of the helpers with the rounding of the handler *)

Lemma miles_km_miles (V : float) (q0 : Q) :
  float_to_Q V = Some q0 -> (0 <= q0 /\ q0 <= 1000000)%Q ->
  exists q1 q4,
    float_to_Q (PyFloat.round6 (miles_to_km V)) = Some q1 /\ (0 <= q1)%Q /\
    float_to_Q (PyFloat.round6 (km_to_miles (PyFloat.round6 (miles_to_km V)))) = Some q4 /\
    (- (1 # 1000000) <= q4 - q0 /\ q4 - q0 <= 1 # 1000000)%Q.
Proof.
  intros E0 H0.
  destruct (miles_to_km_small V q0 E0) as (a & Ea & Ca & Pa); [lra|].
  destruct (round6_close _ a Ea) as (q1 & E1 & C1 & P1); [lra|].
  destruct (km_to_miles_small _ q1 E1) as (b & t & Eb & Et & Cb & Pb); [lra|].
  destruct (round6_close _ b Eb) as (q4 & E4 & C4 & P4); [lra|].
  exists q1, q4. split; [exact E1|]. split; [lra|]. split; [exact E4 | lra].
Qed.

Lemma km_miles_km (V : float) (q0 : Q) :
  float_to_Q V = Some q0 -> (0 <= q0 /\ q0 <= 1000000)%Q ->
  exists q1 q4,
    float_to_Q (PyFloat.round6 (km_to_miles V)) = Some q1 /\ (0 <= q1)%Q /\
    float_to_Q (PyFloat.round6 (miles_to_km (PyFloat.round6 (km_to_miles V)))) = Some q4 /\
    (- (2 # 1000000) <= q4 - q0 /\ q4 - q0 <= 2 # 1000000)%Q.
Proof.
  intros E0 H0.
  destruct (km_to_miles_small V q0 E0) as (a & t & Ea & Et & Ca & Pa); [lra|].
  destruct (round6_close _ a Ea) as (q1 & E1 & C1 & P1); [lra|].
  destruct (miles_to_km_small _ q1 E1) as (b & Eb & Cb & Pb); [lra|].
  destruct (round6_close _ b Eb) as (q4 & E4 & C4 & P4); [lra|].
  exists q1, q4. split; [exact E1|]. split; [lra|]. split; [exact E4 | lra].
Qed.

Lemma lb_kg_lb (V : float) (q0 : Q) :
  float_to_Q V = Some q0 -> (0 <= q0 /\ q0 <= 1000000)%Q ->
  exists q1 q4,
    float_to_Q (PyFloat.round6 (lb_to_kg V)) = Some q1 /\ (0 <= q1)%Q /\
    float_to_Q (PyFloat.round6 (kg_to_lb (PyFloat.round6 (lb_to_kg V)))) = Some q4 /\
    (- (2 # 1000000) <= q4 - q0 /\ q4 - q0 <= 2 # 1000000)%Q.
Proof.
  intros E0 H0.
  destruct (lb_to_kg_small V q0 E0) as (a & Ea & Ca & Pa); [lra|].
  destruct (round6_close _ a Ea) as (q1 & E1 & C1 & P1); [lra|].
  destruct (kg_to_lb_small _ q1 E1) as (b & t & Eb & Et & Cb & Pb); [lra|].
  destruct (round6_close _ b Eb) as (q4 & E4 & C4 & P4); [lra|].
  exists q1, q4. split; [exact E1|]. split; [lra|]. split; [exact E4 | lra].
Qed.

Lemma kg_lb_kg (V : float) (q0 : Q) :
  float_to_Q V = Some q0 -> (0 <= q0 /\ q0 <= 1000000)%Q ->
  exists q1 q4,
    float_to_Q (PyFloat.round6 (kg_to_lb V)) = Some q1 /\ (0 <= q1)%Q /\
    float_to_Q (PyFloat.round6 (lb_to_kg (PyFloat.round6 (kg_to_lb V)))) = Some q4 /\
    (- (1 # 1000000) <= q4 - q0 /\ q4 - q0 <= 1 # 1000000)%Q.
Proof.
  intros E0 H0.
  destruct (kg_to_lb_small V q0 E0) as (a & t & Ea & Et & Ca & Pa); [lra|].
  destruct (round6_close _ a Ea) as (q1 & E1 & C1 & P1); [lra|].
  destruct (lb_to_kg_small _ q1 E1) as (b & Eb & Cb & Pb); [lra|].
  destruct (round6_close _ b Eb) as (q4 & E4 & C4 & P4); [lra|].
  exists q1, q4. split; [exact E1|]. split; [lra|]. split; [exact E4 | lra].
Qed.

Lemma c_f_c (V : float) (q0 : Q) :
  float_to_Q V = Some q0 -> (- (1000000) <= q0 /\ q0 <= 1000000)%Q ->
  exists q4,
    float_to_Q (PyFloat.round6 (f_to_c (PyFloat.round6 (c_to_f V)))) = Some q4 /\
    (- (1 # 1000000) <= q4 - q0 /\ q4 - q0 <= 1 # 1000000)%Q.
Proof.
  intros E0 H0.
  destruct (c_to_f_small V q0 E0) as (a & Ea & Ca); [lra|].
  destruct (round6_close _ a Ea) as (q1 & E1 & C1 & _); [lra|].
  destruct (f_to_c_small _ q1 E1) as (b & Eb & Cb); [lra|].
  destruct (round6_close _ b Eb) as (q4 & E4 & C4 & _); [lra|].
  exists q4. split; [exact E4 | lra].
Qed.

Lemma f_c_f (V : float) (q0 : Q) :
  float_to_Q V = Some q0 -> (- (1000000) <= q0 /\ q0 <= 1000000)%Q ->
  exists q4,
    float_to_Q (PyFloat.round6 (c_to_f (PyFloat.round6 (f_to_c V)))) = Some q4 /\
    (- (2 # 1000000) <= q4 - q0 /\ q4 - q0 <= 2 # 1000000)%Q.
Proof.
  intros E0 H0.
  destruct (f_to_c_small V q0 E0) as (a & Ea & Ca); [lra|].
  destruct (round6_close _ a Ea) as (q1 & E1 & C1 & _); [lra|].
  destruct (c_to_f_small _ q1 E1) as (b & Eb & Cb); [lra|].
  destruct (round6_close _ b Eb) as (q4 & E4 & C4 & _); [lra|].
  exists q4. split; [exact E4 | lra].
Qed.

(** One conversion through the handler, for two recognized units of one
    type and a value that passes step 7. *)
Lemma converted_value_of_request
  (value : json) (v : float) (a b ca cb : string) (h : float -> float) :
  py_float value = Some v ->
  spelling_of a ca -> spelling_of b cb ->
  type_of_code ca = type_of_code cb ->
  dispatch (type_of_code ca) ca cb v = inr (h v) ->
  ((type_of_code ca == "length") || (type_of_code ca == "weight"))
  && (v <? 0)%float = false ->
  converted_value (convert (request_of value a b)) = Some (PyFloat.round6 (h v)).
Proof.
  intros Hv Sa Sb Ht Hd Hadm.
  rewrite (convert_has_fields _ _ _ _ (has_fields_request_of _ _ _)).
  rewrite (convert_fields_valid value v a b ca cb Hv Sa Sb Ht Hadm), Hd.
  reflexivity.
Qed.

Lemma within_of_bounds (tol : Q) (W V : float) (qw qv : Q) :
  float_to_Q W = Some qw -> float_to_Q V = Some qv ->
  (- tol <= qw - qv /\ qw - qv <= tol)%Q ->
  within tol W V = true.
Proof.
  intros Ew Ev H. unfold within. rewrite Ew, Ev.
  apply Qle_bool_iff, Qabs_le_iff. exact H.
Qed.

(** The round trip of a length or a weight that is not negative. *)
Lemma round_trip_of_nonnegative
  (value : json) (V : float) (a b t : string) (h1 h2 : float -> float) (q0 q1 : Q) :
  py_float value = Some V ->
  spelling_of a a -> spelling_of b b ->
  type_of_code a = t -> type_of_code b = t ->
  (forall v, dispatch t a b v = inr (h1 v)) ->
  (forall v, dispatch t b a v = inr (h2 v)) ->
  float_to_Q V = Some q0 -> (0 <= q0)%Q ->
  float_to_Q (PyFloat.round6 (h1 V)) = Some q1 -> (0 <= q1)%Q ->
  round_trip a b value = Some (PyFloat.round6 (h2 (PyFloat.round6 (h1 V)))).
Proof.
  intros Hv Sa Sb Ta Tb D1 D2 E0 P0 E1 P1. unfold round_trip.
  rewrite (converted_value_of_request value V a b a b h1 Hv Sa Sb
             ltac:(congruence) ltac:(rewrite Ta; apply D1)
             ltac:(rewrite (ltb_zero_false V q0 E0 P0); apply andb_false_r)).
  apply (converted_value_of_request
           (JFloat (PyFloat.round6 (h1 V))) (PyFloat.round6 (h1 V))
           b a b a h2 eq_refl Sb Sa
           ltac:(congruence) ltac:(rewrite Tb; apply D2)).
  rewrite (ltb_zero_false _ q1 E1 P1). apply andb_false_r.
Qed.

(** The round trip of a temperature. *)
Lemma round_trip_of_temperature
  (value : json) (V : float) (a b : string) (h1 h2 : float -> float) :
  py_float value = Some V ->
  spelling_of a a -> spelling_of b b ->
  type_of_code a = "temperature" -> type_of_code b = "temperature" ->
  (forall v, dispatch "temperature" a b v = inr (h1 v)) ->
  (forall v, dispatch "temperature" b a v = inr (h2 v)) ->
  round_trip a b value = Some (PyFloat.round6 (h2 (PyFloat.round6 (h1 V)))).
Proof.
  intros Hv Sa Sb Ta Tb D1 D2. unfold round_trip.
  rewrite (converted_value_of_request value V a b a b h1 Hv Sa Sb
             ltac:(congruence) ltac:(rewrite Ta; apply D1)
             ltac:(rewrite Ta; reflexivity)).
  apply (converted_value_of_request
           (JFloat (PyFloat.round6 (h1 V))) (PyFloat.round6 (h1 V))
           b a b a h2 eq_refl Sb Sa
           ltac:(congruence) ltac:(rewrite Tb; apply D2)).
  rewrite Tb. reflexivity.
Qed.

(** C3, as stated: the round trip of every admissible value would end
    within 1e-6 of it.  Each conversion rounds to 6 decimal places: 1.1e-6
    lb is 0.0 kg, and comes back as 0.0 lb. *)
Lemma round_trip_exceeds_tolerance :
  ~ (forall (a b : string) (v w : float),
        In (a, b) [("mi", "km"); ("km", "mi"); ("lb", "kg"); ("kg", "lb");
                   ("c", "f"); ("f", "c")] ->
        (v <? 0)%float = false ->
        round_trip a b (JFloat v) = Some w ->
        within (1 # 1000000) w v = true).
Proof.
  intros H.
  discriminate (H "lb" "kg" 1.1e-6%float 0%float
                  (or_intror (or_intror (or_introl eq_refl))) eq_refl eq_refl).
Qed.

(** C3, amended. For every value that [float] reads as a finite number
    [V] of magnitude at most 1000000 (and not negative, for a length or a
    weight), converting it from A to B and the result back from B to A,
    both through the handler, succeeds and ends within 1e-6 of [V] for mi
    to km, kg to lb and c to f, and within 2e-6 of [V] for km to mi, lb to
    kg and f to c. *)
Theorem round_trip_within_tolerance
  (a b : string) (value : json) (V : float) (q : Q) :
  In (a, b) [("mi", "km"); ("km", "mi"); ("lb", "kg"); ("kg", "lb");
             ("c", "f"); ("f", "c")] ->
  py_float value = Some V ->
  float_to_Q V = Some q ->
  (Qabs q <= 1000000)%Q ->
  (In (a, b) [("mi", "km"); ("km", "mi"); ("lb", "kg"); ("kg", "lb")] ->
   (0 <= q)%Q) ->
  exists W,
    round_trip a b value = Some W /\
    within (tolerance a b) W V = true.
Proof.
  intros Hab Hv Eq Hq Hpos. apply Qabs_le_iff in Hq.
  simpl in Hab, Hpos.
  destruct Hab as [E|[E|[E|[E|[E|[E|[]]]]]]]; injection E as <- <-.
  - assert (P : (0 <= q)%Q) by (apply Hpos; tauto).
    destruct (miles_km_miles V q Eq ltac:(lra)) as (q1 & q4 & E1 & P1 & E4 & C).
    eexists. split.
    + apply (round_trip_of_nonnegative value V "mi" "km" "length"
               miles_to_km km_to_miles q q1); try reflexivity; assumption.
    + now apply (within_of_bounds _ _ _ q4 q).
  - assert (P : (0 <= q)%Q) by (apply Hpos; tauto).
    destruct (km_miles_km V q Eq ltac:(lra)) as (q1 & q4 & E1 & P1 & E4 & C).
    eexists. split.
    + apply (round_trip_of_nonnegative value V "km" "mi" "length"
               km_to_miles miles_to_km q q1); try reflexivity; assumption.
    + now apply (within_of_bounds _ _ _ q4 q).
  - assert (P : (0 <= q)%Q) by (apply Hpos; tauto).
    destruct (lb_kg_lb V q Eq ltac:(lra)) as (q1 & q4 & E1 & P1 & E4 & C).
    eexists. split.
    + apply (round_trip_of_nonnegative value V "lb" "kg" "weight"
               lb_to_kg kg_to_lb q q1); try reflexivity; assumption.
    + now apply (within_of_bounds _ _ _ q4 q).
  - assert (P : (0 <= q)%Q) by (apply Hpos; tauto).
    destruct (kg_lb_kg V q Eq ltac:(lra)) as (q1 & q4 & E1 & P1 & E4 & C).
    eexists. split.
    + apply (round_trip_of_nonnegative value V "kg" "lb" "weight"
               kg_to_lb lb_to_kg q q1); try reflexivity; assumption.
    + now apply (within_of_bounds _ _ _ q4 q).
  - destruct (c_f_c V q Eq ltac:(lra)) as (q4 & E4 & C).
    eexists. split.
    + apply (round_trip_of_temperature value V "c" "f" c_to_f f_to_c);
        try reflexivity; assumption.
    + now apply (within_of_bounds _ _ _ q4 q).
  - destruct (f_c_f V q Eq ltac:(lra)) as (q4 & E4 & C).
    eexists. split.
    + apply (round_trip_of_temperature value V "f" "c" f_to_c c_to_f);
        try reflexivity; assumption.
    + now apply (within_of_bounds _ _ _ q4 q).
Qed.

Lemma round_trip_within_tolerance_witness :
  exists W,
    round_trip "lb" "kg" (JStr "0.0000011") = Some W /\
    within (tolerance "lb" "kg") W 1.1e-6 = true.
Proof.
  eapply (round_trip_within_tolerance "lb" "kg" (JStr "0.0000011") 1.1e-6).
  - simpl. tauto.
  - reflexivity.
  - reflexivity.
  - apply Qle_bool_iff. reflexivity.
  - intros _. apply Qle_bool_iff. reflexivity.
Defined.

(* ------------------------------------------------------------------ *)
(** ** Further properties of the request checks *)

(** X1. For an object body the response depends on the three fields only:
    two bodies that agree on [value], [from_unit] and [to_unit] (present or
    absent) are answered alike, whatever other keys they hold and in
    whatever order. *)
Theorem response_depends_on_three_fields (kvs1 kvs2 : list (string * json)) :
  dict_get kvs1 "value" = dict_get kvs2 "value" ->
  dict_get kvs1 "from_unit" = dict_get kvs2 "from_unit" ->
  dict_get kvs1 "to_unit" = dict_get kvs2 "to_unit" ->
  convert (mkRequest true (JObj kvs1)) = convert (mkRequest true (JObj kvs2)).
Proof.
  intros Hv Hf Ht. unfold convert.
  cbn [is_json get_json negb missing_fields py_in body_get].
  now rewrite Hv, Hf, Ht.
Qed.

Lemma response_depends_on_three_fields_witness :
  convert (mkRequest true (JObj [("to_unit", JStr "km"); ("note", JNull);
                                 ("value", JInt 5); ("from_unit", JStr "mi")])) =
  convert (mkRequest true (JObj [("value", JInt 5); ("from_unit", JStr "mi");
                                 ("to_unit", JStr "km")])).
Proof.
  apply (response_depends_on_three_fields
           [("to_unit", JStr "km"); ("note", JNull);
            ("value", JInt 5); ("from_unit", JStr "mi")]
           [("value", JInt 5); ("from_unit", JStr "mi"); ("to_unit", JStr "km")]);
    reflexivity.
Defined.

(** X2. When an object body lacks one of the three fields, the response is
    the 422 "Missing fields" whose [missing] lists exactly the absent
    fields, in the order value, from_unit, to_unit; the fields that are
    present are not looked at (a present field may hold anything). *)
Theorem missing_fields_reported (request : Request) (kvs : list (string * json)) :
  is_json request = true ->
  get_json request = JObj kvs ->
  absent_fields kvs <> [] ->
  convert request =
  Returned (error_response 422
              [("error", JStr "Missing fields");
               ("missing", JList (map JStr (absent_fields kvs)))]).
Proof.
  intros Hj Hb. unfold convert, absent_fields. rewrite Hj, Hb.
  cbn [negb missing_fields py_in filter].
  destruct (dict_get kvs "value"), (dict_get kvs "from_unit"),
    (dict_get kvs "to_unit"); intros H; try reflexivity.
  now elim H.
Qed.

Lemma missing_fields_reported_witness :
  convert (mkRequest true (JObj [("from_unit", JInt 7)])) =
  Returned (error_response 422
              [("error", JStr "Missing fields");
               ("missing", JList (map JStr (absent_fields [("from_unit", JInt 7)])))]).
Proof.
  apply (missing_fields_reported
           (mkRequest true (JObj [("from_unit", JInt 7)])) [("from_unit", JInt 7)]);
    [reflexivity | reflexivity | discriminate].
Defined.

Lemma existsb_str_In (f : string) (l : list json) :
  In (JStr f) l ->
  existsb (fun j => match j with JStr s => s == f | _ => false end) l = true.
Proof.
  intros H. apply existsb_exists. exists (JStr f).
  split; [exact H | apply String.eqb_refl].
Qed.

(** X3. A JSON body that is not an object is never converted.  A scalar
    body ([null], a boolean, a number) makes the handler raise
    [TypeError] in step 2; a list that holds the three field names passes
    step 2 and makes it raise [AttributeError] at [body.get]; and whenever
    such a request is answered at all, the answer is the 422 "Missing
    fields". *)
Theorem non_object_body (request : Request) :
  is_json request = true ->
  (forall kvs, get_json request <> JObj kvs) ->
  (is_scalar (get_json request) = true -> convert request = Raised TypeError) /\
  (forall l, get_json request = JList l ->
             In (JStr "value") l -> In (JStr "from_unit") l ->
             In (JStr "to_unit") l ->
             convert request = Raised AttributeError) /\
  (forall r, convert request = Returned r ->
             status r = 422 /\ error_of r = Some "Missing fields").
Proof.
  intros Hj Hobj. unfold convert. rewrite Hj. cbn [negb].
  split; [|split].
  - destruct (get_json request); try discriminate; reflexivity.
  - intros l -> Hv Hf Ht. cbn [missing_fields py_in].
    rewrite (existsb_str_In _ _ Hv), (existsb_str_In _ _ Hf),
      (existsb_str_In _ _ Ht).
    reflexivity.
  - intros r.
    destruct (missing_fields (get_json request) ["value"; "from_unit"; "to_unit"])
      as [[|m ms]|]; [| |discriminate].
    + destruct (get_json request) as [| | | | s | l | kvs];
        cbn [body_get]; try discriminate.
      now elim (Hobj kvs).
    + intros [= <-]. now split.
Qed.

Lemma non_object_body_witness :
  (is_scalar (get_json (mkRequest true JNull)) = true ->
   convert (mkRequest true JNull) = Raised TypeError) /\
  (forall l, get_json (mkRequest true JNull) = JList l ->
             In (JStr "value") l -> In (JStr "from_unit") l ->
             In (JStr "to_unit") l ->
             convert (mkRequest true JNull) = Raised AttributeError) /\
  (forall r, convert (mkRequest true JNull) = Returned r ->
             status r = 422 /\ error_of r = Some "Missing fields").
Proof.
  apply (non_object_body (mkRequest true JNull)); [reflexivity | discriminate].
Defined.

(** X4. Two recognized units of different types are refused with status
    400 "Unsupported conversion types" and the message "Cannot convert
    from <type> to <type>", whatever the number: the types are compared
    before the sign of the value is looked at. *)
Theorem category_mismatch_rejected
  (request : Request) (value : json) (v : float) (fu tu ft tt : string) :
  has_fields request value (JStr fu) (JStr tu) ->
  py_float value = Some v ->
  unit_type_of fu ft -> unit_type_of tu tt ->
  ft <> tt ->
  convert request =
  Returned (error_response 400
              [("error", JStr "Unsupported conversion types");
               ("message", JStr ("Cannot convert from " ++ ft ++ " to " ++ tt));
               ("from_unit", JStr (PyStr.strip fu));
               ("to_unit", JStr (PyStr.strip tu))]).
Proof.
  intros Hreq Hv T1 T2 Hne.
  rewrite (convert_has_fields _ _ _ _ Hreq).
  unfold convert_fields. rewrite Hv.
  rewrite (unit_type_nonempty _ _ T1), (unit_type_nonempty _ _ T2).
  unfold convert_units. unfold unit_type_of in T1, T2. rewrite T1, T2.
  apply String.eqb_neq in Hne. now rewrite Hne.
Qed.

Lemma category_mismatch_rejected_witness :
  convert (request_of (JInt (-5)) "mi" " KG") =
  Returned (error_response 400
              [("error", JStr "Unsupported conversion types");
               ("message", JStr ("Cannot convert from " ++ "length" ++ " to " ++ "weight"));
               ("from_unit", JStr (PyStr.strip "mi"));
               ("to_unit", JStr (PyStr.strip " KG"))]).
Proof.
  apply (category_mismatch_rejected
           (request_of (JInt (-5)) "mi" " KG") (JInt (-5)) (-5) "mi" " KG"
           "length" "weight");
    try reflexivity.
  - split; [reflexivity|]. eexists. repeat split.
  - discriminate.
Defined.

(** X5. Every response of the handler has status 200, 400 or 422 (the
    500 responses of the source are never returned), and it carries an
    [error] message exactly when its status is not 200. *)
Theorem response_status_and_error (request : Request) (r : Response) :
  convert request = Returned r ->
  (status r = 200 \/ status r = 400 \/ status r = 422) /\
  (status r = 200 <-> error_of r = None).
Proof.
  intros Hc.
  destruct (convert_returned_inv _ _ Hc)
    as [[S E]|[[S E]|(value & f & t & _ & ->)]];
    [rewrite S, E; split; [tauto | split; discriminate]..|].
  destruct (convert_fields_cases value f t)
    as [(S & _ & E)|[(S & _ & E)|[(S & _ & E)|(v & fu & tu & _ & _ & _ & E)]]];
    [rewrite S, E; split; [tauto | split; discriminate]..|].
  rewrite E.
  destruct (convert_units_cases v (PyStr.strip fu) (PyStr.strip tu))
    as [[S [E'|E']]|[[S [E'|E']]|(ft & c1 & c2 & b & _ & _ & _ & _ & _ & _ & E')]];
    [rewrite S, E'; split; [tauto | split; discriminate]..|].
  rewrite E'. split; [now left | now split].
Qed.

Lemma response_status_and_error_witness :
  (status (error_response 400
             [("error", JStr "Negative value not allowed for selected unit type");
              ("unit_type", JStr "weight"); ("provided_value", JFloat (-1))]) = 200 \/
   status (error_response 400
             [("error", JStr "Negative value not allowed for selected unit type");
              ("unit_type", JStr "weight"); ("provided_value", JFloat (-1))]) = 400 \/
   status (error_response 400
             [("error", JStr "Negative value not allowed for selected unit type");
              ("unit_type", JStr "weight"); ("provided_value", JFloat (-1))]) = 422) /\
  (status (error_response 400
             [("error", JStr "Negative value not allowed for selected unit type");
              ("unit_type", JStr "weight"); ("provided_value", JFloat (-1))]) = 200 <->
   error_of (error_response 400
               [("error", JStr "Negative value not allowed for selected unit type");
                ("unit_type", JStr "weight"); ("provided_value", JFloat (-1))]) = None).
Proof.
  apply (response_status_and_error (request_of (JStr "-1") "lbs" "kg")).
  reflexivity.
Defined.

(** X6. The handler answers with status 200 exactly when the request is
    JSON with an object body whose value [float] accepts, whose from_unit
    and to_unit are strings that, stripped and lower-cased, are registry
    keys of one type, and whose number is not a negative length or weight. *)
Theorem conversion_succeeds_iff (request : Request) :
  (exists r, convert request = Returned r /\ status r = 200) <->
  (exists value v fu tu t,
      has_fields request value (JStr fu) (JStr tu) /\
      py_float value = Some v /\
      unit_type_of fu t /\ unit_type_of tu t /\
      ((t == "length") || (t == "weight")) && (v <? 0)%float = false).
Proof.
  split.
  - intros (r & Hc & Hs).
    destruct (convert_returned_inv _ _ Hc)
      as [[E _]|[[E _]|(value & f & t & Hreq & ->)]];
      [rewrite E in Hs; discriminate Hs..|].
    destruct (convert_fields_cases value f t)
      as [[E _]|[[E _]|[[E _]|(v & fu & tu & Hv & -> & -> & E)]]];
      [rewrite E in Hs; discriminate Hs..|].
    rewrite E in Hs.
    destruct (convert_units_cases v (PyStr.strip fu) (PyStr.strip tu))
      as [[E' _]|[[E' _]|(ft & c1 & c2 & b & T1 & T2 & _ & _ & Hadm & _ & _)]];
      [rewrite E' in Hs; discriminate Hs..|].
    now exists value, v, fu, tu, ft.
  - intros (value & v & fu & tu & t & Hreq & Hv & T1 & T2 & Hadm).
    destruct (unit_type_spelling _ _ T1) as (c1 & S1 & C1 & E1).
    destruct (unit_type_spelling _ _ T2) as (c2 & S2 & C2 & E2).
    assert (Ht : type_of_code c1 = type_of_code c2) by congruence.
    destruct (dispatch_valid c1 c2 v C1 C2 Ht) as [b Hd].
    eexists. split.
    + rewrite (convert_has_fields _ _ _ _ Hreq).
      rewrite (convert_fields_valid value v fu tu c1 c2 Hv S1 S2 Ht)
        by now rewrite E1.
      rewrite Hd. reflexivity.
    + reflexivity.
Qed.

(* ------------------------------------------------------------------ *)
(** ** Further properties of the registry *)

(** X7. The two tables agree: [normalize] knows a unit exactly when
    [get_unit_type] does, and the code it gives is one of the six
    canonical codes, is its own canonical code, and has the type of the
    unit. *)
Theorem registry_tables_agree (u : string) :
  (normalize (Some u) = None <-> get_unit_type (Some u) = None) /\
  (forall c, normalize (Some u) = Some c ->
             is_code c = true /\
             normalize (Some c) = Some c /\
             get_unit_type (Some c) = get_unit_type (Some u)).
Proof.
  change (normalize (Some u)) with (dict_get NORMALIZE (PyStr.lower u)).
  change (get_unit_type (Some u)) with (dict_get ALLOWED_UNITS (PyStr.lower u)).
  split.
  - split; intros H.
    + destruct (dict_get ALLOWED_UNITS (PyStr.lower u)) as [t|] eqn:E;
        [|reflexivity].
      destruct (allowed_normalized _ _ E) as (c & N & _). congruence.
    + destruct (dict_get NORMALIZE (PyStr.lower u)) as [c|] eqn:E;
        [|reflexivity].
      destruct (normalized_allowed _ _ E) as (A & _). congruence.
  - intros c N. destruct (normalized_allowed _ _ N) as (A & C & _).
    rewrite A. split; [exact C|].
    apply is_code_cases in C.
    destruct C as [-> | [-> | [-> | [-> | [-> | ->]]]]]; split; reflexivity.
Qed.

Lemma lower_empty (a b : string) :
  PyStr.lower a = PyStr.lower b -> (a == "") = (b == "").
Proof.
  destruct a, b; simpl; intros H; try reflexivity; discriminate H.
Qed.

(** Two strings with one lower-case form are answered alike by steps 4 to
    8, as first and as second unit, up to the strings echoed. *)
Lemma convert_units_same_lower (v : float) (a a' o : string) :
  PyStr.lower a = PyStr.lower a' ->
  summary (Returned (convert_units v a o)) = summary (Returned (convert_units v a' o)) /\
  summary (Returned (convert_units v o a)) = summary (Returned (convert_units v o a')).
Proof.
  intros H. unfold convert_units, get_unit_type, normalize. rewrite H.
  destruct (dict_get ALLOWED_UNITS (PyStr.lower a')) as [t|];
    destruct (dict_get ALLOWED_UNITS (PyStr.lower o)) as [ot|];
    try (split; reflexivity).
  split.
  - destruct (negb (t == ot)); [reflexivity|].
    destruct (dict_get NORMALIZE (PyStr.lower a')) as [c|]; [|reflexivity].
    destruct (dict_get NORMALIZE (PyStr.lower o)) as [oc|]; [|reflexivity].
    destruct (((t == "length") || (t == "weight")) && (v <? 0)%float);
      [reflexivity|].
    now destruct (dispatch t c oc v).
  - destruct (negb (ot == t)); [reflexivity|].
    destruct (dict_get NORMALIZE (PyStr.lower o)) as [oc|]; [|reflexivity].
    destruct (dict_get NORMALIZE (PyStr.lower a')) as [c|]; [|reflexivity].
    destruct (((ot == "length") || (ot == "weight")) && (v <? 0)%float);
      [reflexivity|].
    now destruct (dispatch ot oc c v).
Qed.

Lemma has_fields_body (value f t : json) :
  has_fields (mkRequest true (JObj [("value", value); ("from_unit", f);
                                    ("to_unit", t)])) value f t.
Proof.
  split; [reflexivity|]. eexists. repeat split.
Qed.

(** X8. Unit strings are read up to case and surrounding white space: two
    strings that agree once stripped and lower-cased, recognized or not,
    give the same status, [converted_value] and [conversion_type], as
    from_unit and as to_unit, for any value and any other unit field. *)
Theorem units_read_up_to_case_and_space (value other : json) (s1 s2 : string) :
  PyStr.lower (PyStr.strip s1) = PyStr.lower (PyStr.strip s2) ->
  summary (convert (mkRequest true (JObj [("value", value);
                                          ("from_unit", JStr s1);
                                          ("to_unit", other)]))) =
  summary (convert (mkRequest true (JObj [("value", value);
                                          ("from_unit", JStr s2);
                                          ("to_unit", other)]))) /\
  summary (convert (mkRequest true (JObj [("value", value);
                                          ("from_unit", other);
                                          ("to_unit", JStr s1)]))) =
  summary (convert (mkRequest true (JObj [("value", value);
                                          ("from_unit", other);
                                          ("to_unit", JStr s2)]))).
Proof.
  intros H. pose proof (lower_empty _ _ H) as He.
  rewrite !(convert_has_fields _ _ _ _ (has_fields_body _ _ _)).
  unfold convert_fields, nonempty_str.
  destruct (py_float value) as [v|]; [|split; reflexivity].
  rewrite He.
  destruct (PyStr.strip s2 == "").
  - split; [reflexivity|].
    destruct other; try reflexivity.
    now destruct (PyStr.strip s == "").
  - destruct other; try (split; reflexivity).
    destruct (PyStr.strip s == ""); [split; reflexivity|].
    apply convert_units_same_lower, H.
Qed.

Lemma units_read_up_to_case_and_space_witness :
  summary (convert (mkRequest true (JObj [("value", JInt 3);
                                          ("from_unit", JStr " MILES ");
                                          ("to_unit", JStr "km")]))) =
  summary (convert (mkRequest true (JObj [("value", JInt 3);
                                          ("from_unit", JStr "miles");
                                          ("to_unit", JStr "km")]))) /\
  summary (convert (mkRequest true (JObj [("value", JInt 3);
                                          ("from_unit", JStr "km");
                                          ("to_unit", JStr " MILES ")]))) =
  summary (convert (mkRequest true (JObj [("value", JInt 3);
                                          ("from_unit", JStr "km");
                                          ("to_unit", JStr "miles")]))).
Proof.
  apply (units_read_up_to_case_and_space (JInt 3) (JStr "km") " MILES " "miles").
  reflexivity.
Defined.

(* ------------------------------------------------------------------ *)
(** ** Further properties of the result *)

(** X9. A response with status 200 is the result of one branch of step 8:
    its [original_value] is [float(value)], its [converted_value] is the
    branch's value rounded to 6 decimal places, and its [conversion_type]
    is the registry type of both units. *)
Theorem successful_response_shape (request : Request) (r : Response) :
  convert request = Returned r ->
  status r = 200 ->
  exists value v fu tu t b,
    has_fields request value (JStr fu) (JStr tu) /\
    py_float value = Some v /\
    unit_type_of fu t /\ unit_type_of tu t /\
    r = ok_response v (PyStr.strip fu) (PyStr.strip tu)
                    (PyFloat.round6 (branch_value b v)) t.
Proof.
  intros Hc Hs.
  destruct (convert_returned_inv _ _ Hc)
    as [[E _]|[[E _]|(value & f & t & Hreq & ->)]];
    [rewrite E in Hs; discriminate Hs..|].
  destruct (convert_fields_cases value f t)
    as [[E _]|[[E _]|[[E _]|(v & fu & tu & Hv & -> & -> & E)]]];
    [rewrite E in Hs; discriminate Hs..|].
  rewrite E in Hs |- *.
  destruct (convert_units_cases v (PyStr.strip fu) (PyStr.strip tu))
    as [[E' _]|[[E' _]|(ft & c1 & c2 & b & T1 & T2 & _ & _ & _ & _ & E')]];
    [rewrite E' in Hs; discriminate Hs..|].
  now exists value, v, fu, tu, ft, b.
Qed.

Lemma successful_response_shape_witness :
  exists value v fu tu t b,
    has_fields (request_of (JStr "1e1") "KG" "lbs") value (JStr fu) (JStr tu) /\
    py_float value = Some v /\
    unit_type_of fu t /\ unit_type_of tu t /\
    ok_response 10 "KG" "lbs" 22.046226 "weight" =
    ok_response v (PyStr.strip fu) (PyStr.strip tu)
                (PyFloat.round6 (branch_value b v)) t.
Proof.
  apply (successful_response_shape
           (request_of (JStr "1e1") "KG" "lbs")
           (ok_response 10 "KG" "lbs" 22.046226 "weight"));
    reflexivity.
Defined.

(** X10. Values that are not finite pass the checks: when [float(value)]
    is NaN or +infinity (from a JSON literal or from a string such as
    "nan" or "inf") and the units are recognized units of one type, of any
    type, the response is a 200 whose [original_value] and
    [converted_value] are both that value. *)
Theorem non_finite_value_is_converted
  (request : Request) (value : json) (v : float) (fu tu t : string) :
  has_fields request value (JStr fu) (JStr tu) ->
  py_float value = Some v ->
  v = nan \/ v = infinity ->
  unit_type_of fu t -> unit_type_of tu t ->
  convert request =
  Returned (ok_response v (PyStr.strip fu) (PyStr.strip tu) v t).
Proof.
  intros Hreq Hv Hnf T1 T2.
  destruct (unit_type_spelling _ _ T1) as (c1 & S1 & C1 & E1).
  destruct (unit_type_spelling _ _ T2) as (c2 & S2 & C2 & E2).
  assert (Ht : type_of_code c1 = type_of_code c2) by congruence.
  destruct (dispatch_valid c1 c2 v C1 C2 Ht) as [b Hd].
  assert (Hneg : (v <? 0)%float = false) by (destruct Hnf as [-> | ->]; reflexivity).
  assert (Hr : PyFloat.round6 (branch_value b v) = v)
    by (destruct Hnf as [-> | ->]; destruct b; reflexivity).
  rewrite (convert_has_fields _ _ _ _ Hreq).
  rewrite (convert_fields_valid value v fu tu c1 c2 Hv S1 S2 Ht)
    by (rewrite Hneg; apply andb_false_r).
  now rewrite Hd, Hr, E1.
Qed.

Lemma non_finite_value_is_converted_witness :
  convert (request_of (JStr " NaN") "miles" "km") =
  Returned (ok_response nan (PyStr.strip "miles") (PyStr.strip "km") nan "length").
Proof.
  apply (non_finite_value_is_converted
           (request_of (JStr " NaN") "miles" "km") (JStr " NaN") nan
           "miles" "km" "length");
    try reflexivity.
  - split; [reflexivity|]. eexists. repeat split.
  - now left.
Defined.

(* ------------------------------------------------------------------ *)
(** ** The help endpoint *)

(** X11. [GET /help] answers with status 200; its
    [allowed_units_examples] is the whole sorted list of registry keys (the
    slice to 30 entries cuts nothing off), the same list the 422 of an
    unknown unit carries, so that a string is an accepted unit exactly when
    its lower-case form is listed; and the keys of its [unit_categories]
    are exactly the types of the registry. *)
Theorem help_lists_the_registry :
  status help_endpoint = 200 /\
  (exists items,
      dict_get (payload help_endpoint) "allowed_units_examples" = Some (JList items) /\
      JList items = allowed_units /\
      forall u, get_unit_type (Some u) <> None <-> In (JStr (PyStr.lower u)) items) /\
  (exists cats,
      dict_get (payload help_endpoint) "unit_categories" = Some (JObj cats) /\
      forall t, In t (dict_keys cats) <-> exists k, dict_get ALLOWED_UNITS k = Some t).
Proof.
  split; [reflexivity|]. split.
  - exists (map JStr (PyStr.sorted (dict_keys ALLOWED_UNITS))).
    split; [reflexivity|]. split; [reflexivity|].
    intros u. change (get_unit_type (Some u))
      with (dict_get ALLOWED_UNITS (PyStr.lower u)).
    rewrite <- dict_get_keys, in_map_iff. split.
    + intros H. exists (PyStr.lower u). split; [reflexivity|].
      now apply (Permutation_in _ (sorted_perm _)).
    + intros (x & [= ->] & H).
      now apply (Permutation_in _ (Permutation_sym (sorted_perm _))).
  - eexists. split; [reflexivity|].
    intros t. split.
    + simpl. intros [<-|[<-|[<-|[]]]].
      * now exists "mi".
      * now exists "lb".
      * now exists "c".
    + intros (k & H). apply dict_get_In in H.
      in_cases H; simpl; tauto.
Qed.

(** X12. The examples that [GET /help] returns are requests the
    conversion handler accepts: each of them, posted as a JSON body, is
    answered with status 200. *)
Theorem help_examples_are_accepted (es : list json) (e : json) :
  dict_get (payload help_endpoint) "examples" = Some (JList es) ->
  In e es ->
  exists r, convert (mkRequest true e) = Returned r /\ status r = 200.
Proof.
  intros [= <-] H. simpl in H.
  destruct H as [<-|[<-|[<-|[]]]]; eexists; split; reflexivity.
Qed.

Lemma help_examples_are_accepted_witness :
  exists r,
    convert (mkRequest true (JObj [("value", JInt 10); ("from_unit", JStr "kg");
                                   ("to_unit", JStr "lb")])) = Returned r /\
    status r = 200.
Proof.
  apply (help_examples_are_accepted
           examples
           (JObj [("value", JInt 10); ("from_unit", JStr "kg"); ("to_unit", JStr "lb")])).
  - reflexivity.
  - simpl. tauto.
Defined.

(* ------------------------------------------------------------------ *)
(** ** Exceptions *)

(** X13. The handler lets an exception escape for a body that is not an
    object only: a request that is not JSON, or whose body is a JSON
    object (with any keys and values), is always answered with a
    response. *)
Theorem object_body_is_answered (request : Request) :
  is_json request = false \/ (exists kvs, get_json request = JObj kvs) ->
  exists r, convert request = Returned r.
Proof.
  unfold convert. intros [-> | [kvs Hb]]; [now eexists|].
  destruct (is_json request); cbn [negb]; [|now eexists].
  rewrite Hb. cbn [missing_fields py_in body_get].
  destruct (dict_get kvs "value"), (dict_get kvs "from_unit"),
    (dict_get kvs "to_unit"); now eexists.
Qed.

Lemma object_body_is_answered_witness :
  exists r, convert (mkRequest true (JObj [("value", JList []);
                                           ("to_unit", JObj [])])) = Returned r.
Proof.
  apply (object_body_is_answered
           (mkRequest true (JObj [("value", JList []); ("to_unit", JObj [])]))).
  right. eexists. reflexivity.
Defined.
